(** * Aadhaar data-extraction endpoint (main.py): model and verified properties

    The service is one FastAPI route that validates an uploaded PDF, writes it
    to a scratch file, rasterises its first page with PyMuPDF (fitz), sends
    the image to a generative model and parses the model's answer as JSON.

    The file embeds main.py function by function.  The collaborators that
    main.py only calls (fitz, PIL, the generative model, json.loads, the
    clock and the file system's failure modes) are the fields of a [World]
    record; the mutable parts (files on disk, standard output, the calls
    made on fitz objects) are threaded through a state-and-exception monad. *)

From Stdlib Require Import ZArith Ascii String List Lia Bool.
From Stdlib Require Import SpecFloat.
From stdpp Require Import base option gmap strings pretty.

Local Open Scope Z_scope.
Set Warnings "-register-all".
Set Default Proof Using "Type".

(** ** Python strings

    A Python [str] is modelled by a Rocq [string] whose characters are the
    code points below 256; [bytes] by a list of bytes. *)

Module PyString.

(** [str.isspace] on one character: U+0009..U+000D, U+001C..U+0020, U+0085
    and U+00A0 are the white-space code points below 256. *)
Definition isspace (c : ascii) : bool :=
  let n := N_of_ascii c in
  ((9 <=? n) && (n <=? 13) || (28 <=? n) && (n <=? 32)
   || (n =? 133) || (n =? 160))%N.

(** [str.lower] on one character: A..Z and the upper-case letters of the
    Latin-1 block (U+00C0..U+00DE but the multiplication sign U+00D7). *)
Definition lower_char (c : ascii) : ascii :=
  let n := N_of_ascii c in
  if ((65 <=? n) && (n <=? 90)
      || (192 <=? n) && (n <=? 222) && negb (n =? 215))%N
  then ascii_of_N (n + 32) else c.

Fixpoint lower (s : string) : string :=
  match s with
  | EmptyString => EmptyString
  | String c r => String (lower_char c) (lower r)
  end.

Fixpoint startswith (s p : string) : bool :=
  match p, s with
  | EmptyString, _ => true
  | String _ _, EmptyString => false
  | String a p', String b s' => Ascii.eqb a b && startswith s' p'
  end.

Fixpoint drop (n : nat) (s : string) : string :=
  match n, s with
  | O, _ => s
  | S _, EmptyString => EmptyString
  | S n', String _ r => drop n' r
  end.

(** [s.endswith(suffix)]: the last [len(suffix)] characters of [s] are
    [suffix]. *)
Definition endswith (s suffix : string) : bool :=
  (String.length suffix <=? String.length s)%nat
  && String.eqb (drop (String.length s - String.length suffix) s) suffix.

(** [sub in s]. *)
Fixpoint contains (s sub : string) : bool :=
  startswith s sub
  || match s with
     | EmptyString => false
     | String _ r => contains r sub
     end.

Fixpoint mem_char (c : ascii) (s : string) : bool :=
  match s with
  | EmptyString => false
  | String a r => Ascii.eqb c a || mem_char c r
  end.

Fixpoint lstrip (s : string) : string :=
  match s with
  | EmptyString => EmptyString
  | String c r => if isspace c then lstrip r else s
  end.

Fixpoint rstrip (s : string) : string :=
  match s with
  | EmptyString => EmptyString
  | String c r =>
      match rstrip r with
      | EmptyString => if isspace c then EmptyString else String c EmptyString
      | r' => String c r'
      end
  end.

(** [s.strip()] *)
Definition strip (s : string) : string := rstrip (lstrip s).

(** [s.replace(old, new)]: the occurrences of [old] are found from left to
    right and do not overlap.  [skip] counts the characters of an occurrence
    just replaced that are still to be passed over. *)
Fixpoint replace_go (skip : nat) (s old new : string) : string :=
  match s with
  | EmptyString => EmptyString
  | String c r =>
      match skip with
      | S k => replace_go k r old new
      | O =>
          if startswith s old
          then new +:+ replace_go (String.length old - 1) r old new
          else String c (replace_go 0 r old new)
      end
  end.

(** With an empty [old], Python puts [new] before every character and at the
    end. *)
Fixpoint interleave (s new : string) : string :=
  match s with
  | EmptyString => new
  | String c r => new +:+ String c (interleave r new)
  end.

Definition replace (s old new : string) : string :=
  match old with
  | EmptyString => interleave s new
  | String _ _ => replace_go 0 s old new
  end.

(** No occurrence of [old] in [a +:+ b] starts inside [a]. *)
Fixpoint no_start (a b old : string) : bool :=
  match a with
  | EmptyString => true
  | String _ a' => negb (startswith (a +:+ b) old) && no_start a' b old
  end.

End PyString.

Import PyString.


(** Python [bytes]. *)
Abbreviation bytes := (list Byte.byte).

Definition nl : string := String "010" EmptyString.
Definition dq : string := String "034" EmptyString.

(** A text inside markdown code-block delimiters, each on a line of its own. *)
Definition fenced (t : string) : string :=
  "```json" +:+ nl +:+ t +:+ nl +:+ "```".

(** The delimiters put directly around the text. *)
Definition fenced_inline (t : string) : string :=
  "```json" +:+ t +:+ "```".

(** Delimiters without a language tag, each on a line of its own. *)
Definition fenced_plain (t : string) : string :=
  "```" +:+ nl +:+ t +:+ nl +:+ "```".

(** ** Python values *)

(** What [json.loads] can return; [PyNone] is also the [None] that the
    functions of main.py return for "no result". *)
Inductive pyvalue : Type :=
| PyNone
| PyBool (b : bool)
| PyInt (n : Z)
| PyFloat (x : spec_float)
| PyStr (s : string)
| PyList (l : list pyvalue)
| PyDict (d : list (string * pyvalue)).

(** [bool(v)], the test behind [if not v]. *)
Definition truthy (v : pyvalue) : bool :=
  match v with
  | PyNone => false
  | PyBool b => b
  | PyInt n => negb (n =? 0)
  | PyFloat (S754_zero _) => false
  | PyFloat _ => true
  | PyStr s => negb (String.eqb s "")
  | PyList l => match l with [] => false | _ :: _ => true end
  | PyDict d => match d with [] => false | _ :: _ => true end
  end.

(** What [json.dumps(..., allow_nan=False)], by which a [JSONResponse]
    renders its content, accepts: no NaN and no infinity. *)
Fixpoint json_compliant (v : pyvalue) : bool :=
  match v with
  | PyFloat S754_nan | PyFloat (S754_infinity _) => false
  | PyList l => forallb json_compliant l
  | PyDict d =>
      forallb (fun kv => match kv with (_, x) => json_compliant x end) d
  | _ => true
  end.

(** ** Exceptions *)

Inductive exn : Type :=
| HTTPException (status_code : Z) (detail : string)
| JSONDecodeError (msg : string)
| OtherException (cls : string) (msg : string).

(** [str(e)]; for an [HTTPException] it is Starlette's
    ["<status_code>: <detail>"]. *)
Definition str (e : exn) : string :=
  match e with
  | HTTPException c d => pretty c +:+ ": " +:+ d
  | JSONDecodeError m | OtherException _ m => m
  end.

Definition is_HTTPException (e : exn) : bool :=
  match e with HTTPException _ _ => true | _ => false end.

Inductive outcome (A : Type) : Type :=
| Ok (a : A)
| Raise (e : exn).
Arguments Ok {A} a.
Arguments Raise {A} e.

(** ** The collaborators *)

Record Pixmap := { tobytes : string -> outcome (bytes) }.
Record Page := { get_pixmap : outcome Pixmap }.
Record Document := {
  page_count : Z;
  load_page : Z -> outcome Page;
  close : outcome unit
}.

Record BytesIO := { getvalue : bytes }.
Record Image := { decoded : bytes }.
Record Response := { text : outcome string }.
Record Model := { generate_content : string -> Image -> outcome Response }.

Record World := {
  (** [fitz.open] on the bytes of a document *)
  fitz_open : bytes -> outcome Document;
  (** the evaluation of [fitz.FitzError]: the test of being an instance of
      that class, or the [AttributeError] of a module without the name *)
  fitz_FitzError : outcome (exn -> bool);
  (** the failure, if any, of [open(path, 'wb')] *)
  open_wb_error : string -> option exn;
  (** the failure, if any, of [f.write(content)], with the bytes that the
      file then holds *)
  write_error : string -> bytes -> option (exn * bytes);
  (** the [ValueError] of rendering a content that is not JSON compliant *)
  render_error : pyvalue -> exn;
  (** the failure, if any, of [os.remove] on an existing file *)
  os_remove_error : string -> option exn;
  (** [datetime.now().timestamp()], formatted *)
  now_timestamp : string;
  GenerativeModel : string -> outcome Model;
  PIL_Image_open : bytes -> outcome Image;
  json_loads : string -> outcome pyvalue
}.

(** ** State and the monad of main.py's functions *)

Inductive fitz_call : Type :=
| FitzOpenStream (filetype : string)
| FitzOpenPath (path : string)
| LoadPage (n : Z)
| GetPixmap
| ToBytes (fmt : string)
| Close.

Record State := {
  fs : gmap string (bytes);
  stdout : list string;
  fitz_calls : list fitz_call
}.

Definition M (A : Type) : Type := State -> outcome A * State.

Definition ret {A} (a : A) : M A := fun st => (Ok a, st).
Definition raise {A} (e : exn) : M A := fun st => (Raise e, st).
Definition bind {A B} (c : M A) (k : A -> M B) : M B :=
  fun st =>
    match c st with
    | (Ok a, st') => k a st'
    | (Raise e, st') => (Raise e, st')
    end.
(** [try: c except ... as e: h e]; a handler re-raises what it does not
    catch. *)
Definition try_except {A} (c : M A) (h : exn -> M A) : M A :=
  fun st =>
    match c st with
    | (Ok a, st') => (Ok a, st')
    | (Raise e, st') => h e st'
    end.
Definition lift {A} (o : outcome A) : M A := fun st => (o, st).

Notation "'let!' x ':=' c 'in' k" := (bind c (fun x => k))
  (at level 10, x name, c at level 100, k at level 200).

Definition print (line : string) : M unit :=
  fun st => (Ok tt, {| fs := fs st; stdout := stdout st ++ [line];
                       fitz_calls := fitz_calls st |}).

Definition called {A} (c : fitz_call) (o : outcome A) : M A :=
  fun st => (o, {| fs := fs st; stdout := stdout st;
                   fitz_calls := fitz_calls st ++ [c] |}).

(** The state after the fitz calls [cs]. *)
Definition logged (cs : list fitz_call) (st : State) : State :=
  {| fs := fs st; stdout := stdout st; fitz_calls := fitz_calls st ++ cs |}.

(** ** main.py *)

Section Program.

Variable W : World.

(** [fitz.open(stream=content, filetype=...)] *)
Definition fitz_open_stream (content : bytes) (filetype : string)
  : M Document :=
  called (FitzOpenStream filetype) (fitz_open W content).

(** [fitz.open(pdf_path)] reads the file at [pdf_path]. *)
Definition fitz_open_path (pdf_path : string) : M Document :=
  fun st =>
    called (FitzOpenPath pdf_path)
      (match fs st !! pdf_path with
       | Some content => fitz_open W content
       | None =>
           Raise (OtherException "FileNotFoundError"
                    ("no such file: '" +:+ pdf_path +:+ "'"))
       end) st.

(** [with open(path, 'wb') as f: f.write(content)] *)
Definition open_wb_write (path : string) (content : bytes) : M unit :=
  fun st =>
    match open_wb_error W path with
    | Some e => (Raise e, st)
    | None =>
        match write_error W path content with
        | Some (e, written) =>
            (Raise e, {| fs := <[path := written]> (fs st);
                         stdout := stdout st;
                         fitz_calls := fitz_calls st |})
        | None => (Ok tt, {| fs := <[path := content]> (fs st);
                             stdout := stdout st;
                             fitz_calls := fitz_calls st |})
        end
    end.

(** [os.remove(path)] *)
Definition os_remove (path : string) : M unit :=
  fun st =>
    match fs st !! path with
    | None =>
        (Raise (OtherException "FileNotFoundError"
                  ("[Errno 2] No such file or directory: '" +:+ path +:+ "'")),
         st)
    | Some _ =>
        match os_remove_error W path with
        | Some e => (Raise e, st)
        | None => (Ok tt, {| fs := delete path (fs st);
                             stdout := stdout st;
                             fitz_calls := fitz_calls st |})
        end
    end.

(** main.py, lines 25-35 *)
Definition validate_pdf (filename : string) (content : bytes) : M bool :=
  if negb (endswith (lower filename) ".pdf") then ret false
  else
    try_except
      (let! doc := fitz_open_stream content "pdf" in
       let! _ := called Close (close doc) in
       ret true)
      (fun e =>
         match fitz_FitzError W with
         | Ok is_instance => if is_instance e then ret false else raise e
         | Raise attribute_error => raise attribute_error
         end).

(** main.py, lines 40-48: the body of the [try] of [convert_pdf_to_image] *)
Definition convert_pdf_to_image_try (pdf_path : string) : M (option BytesIO) :=
  let! pdf_document := fitz_open_path pdf_path in
  if page_count pdf_document <? 1
  then raise (HTTPException 400 "PDF has no pages.")
  else
    let! page := called (LoadPage 0) (load_page pdf_document 0) in
    let! pix := called GetPixmap (get_pixmap page) in
    let! png := called (ToBytes "png") (tobytes pix "png") in
    let img_data := {| getvalue := png |} in
    let! _ := called Close (close pdf_document) in
    ret (Some img_data).

(** main.py, lines 37-51 *)
Definition convert_pdf_to_image (pdf_path : string) : M (option BytesIO) :=
  try_except (convert_pdf_to_image_try pdf_path)
    (fun e =>
       let! _ := print ("Error converting PDF to image: " +:+ str e) in
       ret None).

Definition prompt_field (key : string) : string :=
  "            " +:+ dq +:+ key +:+ dq +:+ ": " +:+ dq +:+ dq +:+ "," +:+ nl.

(** main.py, lines 63-82 *)
Definition prompt : string :=
  nl +:+
  "        Analyze this Aadhaar card image and extract the following details:" +:+ nl +:+
  "        - Full name" +:+ nl +:+
  "        - Date of birth" +:+ nl +:+
  "        - Gender" +:+ nl +:+
  "        - Aadhaar number" +:+ nl +:+
  "        - Address" +:+ nl +:+
  "        -S/O, D/O" +:+ nl +:+
  "        Return the information in this JSON format:" +:+ nl +:+
  "        {" +:+ nl +:+
  prompt_field "name" +:+
  prompt_field "date_of_birth" +:+
  prompt_field "date_of_birth_year" +:+
  prompt_field "gender" +:+
  prompt_field "aadhaar_number" +:+
  prompt_field "address" +:+
  prompt_field "Parent" +:+
  "            " +:+ dq +:+ "confidence" +:+ dq +:+ ": 0-100" +:+ nl +:+
  "        }" +:+ nl +:+
  "        ".

(** main.py, lines 85-86: the response text, stripped and without its
    markdown code-fence delimiters *)
Definition clean_json_str (response_text : string) : string :=
  let json_str := strip response_text in
  strip (replace (replace json_str "```json" "") "```" "").

(** main.py, lines 53-96 *)
Definition extract_aadhaar_data (image_source : BytesIO) : M pyvalue :=
  let! model := lift (GenerativeModel W "gemini-1.5-flash") in
  try_except
    (let! img := lift (PIL_Image_open W (getvalue image_source)) in
     let! response := lift (generate_content model prompt img) in
     let! response_text := lift (text response) in
     let json_str := clean_json_str response_text in
     try_except (lift (json_loads W json_str))
       (fun e =>
          match e with
          | JSONDecodeError _ =>
              let! _ := print "Failed to decode JSON response from AI." in
              ret PyNone
          | _ => raise e
          end))
    (fun e =>
       let! _ := print ("Error extracting Aadhaar data: " +:+ str e) in
       ret PyNone).

Record UploadFile := { filename : string; file : bytes }.

Record JSONResponse := { status_code : Z; content : pyvalue }.

Definition error_content (message : string) : pyvalue :=
  PyDict [("error", PyStr message)].

(** [JSONResponse(status_code=..., content=...)]: the constructor renders
    the content, and raises when it is not JSON compliant. *)
Definition new_JSONResponse (code : Z) (body : pyvalue) : M JSONResponse :=
  if json_compliant body
  then ret {| status_code := code; content := body |}
  else raise (render_error W body).

(** main.py, line 115 *)
Definition temp_filename : string :=
  "temp_aadhaar_" +:+ now_timestamp W +:+ ".pdf".

(** main.py, lines 104-141: the body of the [try] of [extract_aadhaar] *)
Definition extract_aadhaar_try (aadhaar : UploadFile) : M JSONResponse :=
  let aadhaar_content := file aadhaar in
  let! valid := validate_pdf (filename aadhaar) aadhaar_content in
  if negb valid
  then raise (HTTPException 400
                ("File " +:+ filename aadhaar +:+ " must be a valid PDF"))
  else
    let! _ := open_wb_write temp_filename aadhaar_content in
    let! img_data := convert_pdf_to_image temp_filename in
    match img_data with
    | None =>
        raise (HTTPException 400 ("Failed to process " +:+ filename aadhaar))
    | Some img_data =>
        let! aadhaar_data := extract_aadhaar_data img_data in
        if negb (truthy aadhaar_data)
        then raise (HTTPException 400
                      ("Failed to extract data from " +:+ filename aadhaar))
        else
          let! _ := try_except (os_remove temp_filename)
                      (fun e =>
                         print ("Error deleting temporary file: " +:+ str e)) in
          new_JSONResponse 200 aadhaar_data
    end.

(** main.py, lines 143-146: the two [except] clauses of [extract_aadhaar] *)
Definition error_response (e : exn) : M JSONResponse :=
  match e with
  | HTTPException code detail => new_JSONResponse code (error_content detail)
  | _ => new_JSONResponse 500 (error_content (str e))
  end.

(** main.py, lines 98-146 *)
Definition extract_aadhaar (aadhaar : UploadFile) : M JSONResponse :=
  try_except (extract_aadhaar_try aadhaar) error_response.

(** The rest of a request whose upload was validated, saved and rasterized. *)
Definition after_rasterization (aadhaar : UploadFile) (img_data : BytesIO)
  : M JSONResponse :=
  try_except
    (let! aadhaar_data := extract_aadhaar_data img_data in
     if negb (truthy aadhaar_data)
     then raise (HTTPException 400
                   ("Failed to extract data from " +:+ filename aadhaar))
     else
       let! _ := try_except (os_remove temp_filename)
                   (fun e => print ("Error deleting temporary file: " +:+ str e)) in
       new_JSONResponse 200 aadhaar_data)
    error_response.

(** The response text of the model for an image (lines 57, 60, 84, 85),
    when every call up to [response.text] returns. *)
Definition response_text (image_source : BytesIO) : outcome string :=
  match GenerativeModel W "gemini-1.5-flash" with
  | Ok model =>
      match PIL_Image_open W (getvalue image_source) with
      | Ok img =>
          match generate_content model prompt img with
          | Ok response => text response
          | Raise e => Raise e
          end
      | Raise e => Raise e
      end
  | Raise e => Raise e
  end.

(** Opening [content] as a PDF and closing it both return. *)
Definition opens_as_pdf (content : bytes) : bool :=
  match fitz_open W content with
  | Ok doc => match close doc with Ok _ => true | Raise _ => false end
  | Raise _ => false
  end.

End Program.

(** ** Concrete collaborators, to run the model on examples *)

Module Sample.

(** A [json.loads] for the JSON texts without fractions, exponents and
    [\u] escapes: white space, [null], [true], [false], integers, strings,
    arrays and objects. *)

Definition json_ws (c : ascii) : bool :=
  let n := N_of_ascii c in ((n =? 32) || (n =? 9) || (n =? 10) || (n =? 13))%N.

Fixpoint skip_ws (s : string) : string :=
  match s with
  | String c r => if json_ws c then skip_ws r else s
  | EmptyString => EmptyString
  end.

Definition digit_val (c : ascii) : option Z :=
  let n := N_of_ascii c in
  if ((48 <=? n) && (n <=? 57))%N then Some (Z.of_N n - 48) else None.

Fixpoint digits (acc : Z) (s : string) : Z * string :=
  match s with
  | String c r =>
      match digit_val c with
      | Some d => digits (10 * acc + d) r
      | None => (acc, s)
      end
  | EmptyString => (acc, EmptyString)
  end.

Definition parse_nat (s : string) : option (Z * string) :=
  match s with
  | String c r =>
      match digit_val c with
      | Some 0 => Some (0, r)
      | Some d => Some (digits d r)
      | None => None
      end
  | EmptyString => None
  end.

Definition parse_int (s : string) : option (pyvalue * string) :=
  let signed :=
    match s with
    | String "-" r =>
        match parse_nat r with
        | Some (n, r') => Some (- n, r')
        | None => None
        end
    | _ => parse_nat s
    end in
  match signed with
  | Some (n, String c r) =>
      if mem_char c ".eE" then None else Some (PyInt n, String c r)
  | Some (n, EmptyString) => Some (PyInt n, EmptyString)
  | None => None
  end.

Definition unescape (c : ascii) : option ascii :=
  (if Ascii.eqb c "034" then Some "034"
   else if Ascii.eqb c "\" then Some "\"
   else if Ascii.eqb c "/" then Some "/"
   else if Ascii.eqb c "b" then Some "008"
   else if Ascii.eqb c "f" then Some "012"
   else if Ascii.eqb c "n" then Some "010"
   else if Ascii.eqb c "r" then Some "013"
   else if Ascii.eqb c "t" then Some "009"
   else None)%char.

Definition cons_char (c : ascii) (p : option (string * string))
  : option (string * string) :=
  match p with
  | Some (s, r) => Some (String c s, r)
  | None => None
  end.

(** The characters of a string literal after its opening quote. *)
Fixpoint parse_string (s : string) : option (string * string) :=
  match s with
  | EmptyString => None
  | String c r =>
      if Ascii.eqb c "034" then Some (EmptyString, r)
      else if Ascii.eqb c "\" then
        match r with
        | String e r' =>
            match unescape e with
            | Some c' => cons_char c' (parse_string r')
            | None => None
            end
        | EmptyString => None
        end
      else if (N_of_ascii c <? 32)%N then None
      else cons_char c (parse_string r)
  end.

Definition expect (word : string) (v : pyvalue) (s : string)
  : option (pyvalue * string) :=
  if startswith s word then Some (v, drop (String.length word) s) else None.

Fixpoint dict_remove (k : string) (d : list (string * pyvalue))
  : list (string * pyvalue) :=
  match d with
  | [] => []
  | (k', v) :: d' =>
      if String.eqb k k' then dict_remove k d' else (k', v) :: dict_remove k d'
  end.

Fixpoint dict_get (k : string) (d : list (string * pyvalue)) : option pyvalue :=
  match d with
  | [] => None
  | (k', v) :: d' => if String.eqb k k' then Some v else dict_get k d'
  end.

(** A key met again keeps its first place and takes the later value. *)
Definition dict_cons (k : string) (v : pyvalue) (d : list (string * pyvalue))
  : list (string * pyvalue) :=
  match dict_get k d with
  | Some v' => (k, v') :: dict_remove k d
  | None => (k, v) :: d
  end.

Fixpoint parse_value (fuel : nat) (s : string) {struct fuel}
  : option (pyvalue * string) :=
  match fuel with
  | O => None
  | S fuel' =>
      match skip_ws s with
      | EmptyString => None
      | String c r =>
          if Ascii.eqb c "n" then expect "ull" PyNone r
          else if Ascii.eqb c "t" then expect "rue" (PyBool true) r
          else if Ascii.eqb c "f" then expect "alse" (PyBool false) r
          else if Ascii.eqb c "034" then
            match parse_string r with
            | Some (str, r') => Some (PyStr str, r')
            | None => None
            end
          else if Ascii.eqb c "[" then
            match skip_ws r with
            | String "]" r' => Some (PyList [], r')
            | _ =>
                match parse_elements fuel' r with
                | Some (l, r') => Some (PyList l, r')
                | None => None
                end
            end
          else if Ascii.eqb c "{" then
            match skip_ws r with
            | String "}" r' => Some (PyDict [], r')
            | _ =>
                match parse_members fuel' r with
                | Some (d, r') => Some (PyDict d, r')
                | None => None
                end
            end
          else parse_int (String c r)
      end
  end
with parse_elements (fuel : nat) (s : string) {struct fuel}
  : option (list pyvalue * string) :=
  match fuel with
  | O => None
  | S fuel' =>
      match parse_value fuel' s with
      | Some (v, r) =>
          match skip_ws r with
          | String "," r' =>
              match parse_elements fuel' r' with
              | Some (l, r'') => Some (v :: l, r'')
              | None => None
              end
          | String "]" r' => Some ([v], r')
          | _ => None
          end
      | None => None
      end
  end
with parse_members (fuel : nat) (s : string) {struct fuel}
  : option (list (string * pyvalue) * string) :=
  match fuel with
  | O => None
  | S fuel' =>
      match skip_ws s with
      | String "034" r =>
          match parse_string r with
          | Some (k, r1) =>
              match skip_ws r1 with
              | String ":" r2 =>
                  match parse_value fuel' r2 with
                  | Some (v, r3) =>
                      match skip_ws r3 with
                      | String "," r4 =>
                          match parse_members fuel' r4 with
                          | Some (d, r5) => Some (dict_cons k v d, r5)
                          | None => None
                          end
                      | String "}" r4 => Some ([(k, v)], r4)
                      | _ => None
                      end
                  | None => None
                  end
              | _ => None
              end
          | None => None
          end
      | _ => None
      end
  end.

Definition loads (s : string) : outcome pyvalue :=
  match parse_value (2 * String.length s + 2) s with
  | Some (v, r) =>
      match skip_ws r with
      | EmptyString => Ok v
      | String _ _ => Raise (JSONDecodeError "Extra data")
      end
  | None => Raise (JSONDecodeError "Expecting value")
  end.

(** A fitz that opens the contents starting with "%PDF" as a document of
    [pages] pages and rejects the others with [open_error]; as PyMuPDF, it
    has no name [FitzError]. *)

Definition no_FitzError : exn :=
  OtherException "AttributeError" "module 'fitz' has no attribute 'FitzError'".

Definition not_compliant : exn :=
  OtherException "ValueError" "Out of range float values are not JSON compliant".

Definition is_pdf (content : bytes) : bool :=
  String.eqb (string_of_list_byte (firstn 4 content)) "%PDF".

Definition page (n : Z) : Page :=
  {| get_pixmap :=
       Ok {| tobytes := fun fmt =>
               Ok (list_byte_of_string (fmt +:+ " of page " +:+ pretty n)) |} |}.

Definition document (pages : Z) : Document :=
  {| page_count := pages;
     load_page := fun n =>
       if (0 <=? n) && (n <? pages) then Ok (page n)
       else Raise (OtherException "ValueError" "page not in document");
     close := Ok tt |}.

Definition model (reply : outcome string) : Model :=
  {| generate_content := fun _ _ => Ok {| text := reply |} |}.

(** The world of one request: the document has [pages] pages, opening a
    non-PDF raises [open_error], writing the scratch file fails as
    [write_error] says, and the model answers [reply]. *)
Definition world (pages : Z) (open_error : exn) (write_error : option exn)
    (reply : outcome string) : World :=
  {| fitz_open := fun content =>
       if is_pdf content then Ok (document pages) else Raise open_error;
     fitz_FitzError := Raise no_FitzError;
     open_wb_error := fun _ => write_error;
     write_error := fun _ _ => None;
     render_error := fun _ => not_compliant;
     os_remove_error := fun _ => None;
     now_timestamp := "1730642400.123456";
     GenerativeModel := fun _ => Ok (model reply);
     PIL_Image_open := fun data => Ok {| decoded := data |};
     json_loads := loads |}.

Definition broken : exn := OtherException "FileDataError" "Failed to open stream".

(** The world [w] but for the model, whose construction raises [e], and the
    world [w] but for [os.remove], that raises [e]. *)
Definition without_model (w : World) (e : exn) : World :=
  {| fitz_open := fitz_open w; fitz_FitzError := fitz_FitzError w;
     open_wb_error := open_wb_error w; write_error := write_error w;
     render_error := render_error w;
     os_remove_error := os_remove_error w; now_timestamp := now_timestamp w;
     GenerativeModel := fun _ => Raise e;
     PIL_Image_open := PIL_Image_open w; json_loads := json_loads w |}.


Definition st0 : State := {| fs := ∅; stdout := []; fitz_calls := [] |}.

Definition jstr (s : string) : string := dq +:+ s +:+ dq.

(** [{"name": "Asha", ..., "confidence": 90}] *)
Definition record_json : string :=
  "{" +:+ jstr "name" +:+ ": " +:+ jstr "Asha" +:+ ", " +:+
  jstr "date_of_birth" +:+ ": " +:+ jstr "01/01/1990" +:+ ", " +:+
  jstr "date_of_birth_year" +:+ ": " +:+ jstr "1990" +:+ ", " +:+
  jstr "gender" +:+ ": " +:+ jstr "Female" +:+ ", " +:+
  jstr "aadhaar_number" +:+ ": " +:+ jstr "1234 5678 9012" +:+ ", " +:+
  jstr "address" +:+ ": " +:+ jstr "12 MG Road" +:+ ", " +:+
  jstr "Parent" +:+ ": " +:+ jstr "" +:+ ", " +:+
  jstr "confidence" +:+ ": 90}".

Definition record_value : pyvalue :=
  PyDict [("name", PyStr "Asha"); ("date_of_birth", PyStr "01/01/1990");
          ("date_of_birth_year", PyStr "1990"); ("gender", PyStr "Female");
          ("aadhaar_number", PyStr "1234 5678 9012");
          ("address", PyStr "12 MG Road"); ("Parent", PyStr "");
          ("confidence", PyInt 90)].

Definition pdf_bytes : bytes := list_byte_of_string "%PDF-1.4 scanned card".
Definition text_bytes : bytes := list_byte_of_string "name: Asha".

Definition card_pdf : UploadFile := {| filename := "card.pdf"; file := pdf_bytes |}.
Definition card_txt : UploadFile := {| filename := "card.txt"; file := text_bytes |}.

Definition scratch : string := "temp_aadhaar_1730642400.123456.pdf".

(** The world [w] with the [json.loads] that also reads the literal [NaN]. *)
Definition loads_nan (s : string) : outcome pyvalue :=
  if String.eqb (skip_ws s) "NaN" then Ok (PyFloat S754_nan) else loads s.

Definition with_nan (w : World) : World :=
  {| fitz_open := fitz_open w; fitz_FitzError := fitz_FitzError w;
     open_wb_error := open_wb_error w; write_error := write_error w;
     render_error := render_error w;
     os_remove_error := os_remove_error w; now_timestamp := now_timestamp w;
     GenerativeModel := GenerativeModel w;
     PIL_Image_open := PIL_Image_open w; json_loads := loads_nan |}.

End Sample.

(** Tactics to run the monad. *)

Ltac unfold_monad :=
  unfold bind, ret, raise, try_except, lift, called, print in *.

Ltac case_outcome :=
  match goal with
  | |- context [match ?o with Ok _ => _ | Raise _ => _ end] =>
      destruct o as [?|[]] eqn:?
  | |- context [match ?o with Some _ => _ | None => _ end] =>
      destruct o eqn:?
  | |- context [if ?b then _ else _] => destruct b eqn:?
  end.

(** * Properties *)

(** ** Strings: prefixes, occurrences, replacement and stripping *)

#[local] Arguments String.append !_ _.

Section StringFacts.

Implicit Types s t p old new a b x w : string.
Implicit Types c d : ascii.

Lemma append_nil_r s : s +:+ "" = s.
Proof. induction s as [|c s IH]; simpl; [reflexivity | now rewrite IH]. Qed.

Lemma append_assoc a b s : (a +:+ b) +:+ s = a +:+ (b +:+ s).
Proof. induction a as [|c a IH]; simpl; [reflexivity | now rewrite IH]. Qed.

Lemma startswith_nil s : startswith s "" = true.
Proof. destruct s; reflexivity. Qed.

Lemma startswith_refl_app p s : startswith (p +:+ s) p = true.
Proof.
  induction p as [|c p IH]; simpl.
  - apply startswith_nil.
  - rewrite Ascii.eqb_refl. exact IH.
Qed.

Lemma startswith_refl s : startswith s s = true.
Proof.
  induction s as [|c s IH]; simpl; [reflexivity|].
  now rewrite Ascii.eqb_refl.
Qed.

Lemma startswith_app s w p :
  startswith s p = true -> startswith (s +:+ w) p = true.
Proof.
  revert s; induction p as [|o p IH]; intros s; [intros _; apply startswith_nil|].
  destruct s as [|c s]; simpl; [easy|].
  intros [-> H]%andb_prop. now rewrite IH.
Qed.

Lemma startswith_prefix s p q :
  startswith s (p +:+ q) = true -> startswith s p = true.
Proof.
  revert s; induction p as [|o p IH]; intros s; simpl.
  - intros _. apply startswith_nil.
  - destruct s as [|c s]; simpl; [easy|].
    intros [-> H]%andb_prop. simpl. now apply IH.
Qed.

(** A prefix [old] of [x +:+ b] lies within [x], or [x] is a prefix of
    [old] whose remainder starts [b]. *)
Lemma startswith_app_inv x b old :
  startswith (x +:+ b) old = true ->
  startswith x old = true \/ exists r, old = x +:+ r /\ startswith b r = true.
Proof.
  revert old; induction x as [|c x IH]; intros old H.
  - right. exists old. split; [reflexivity | exact H].
  - destruct old as [|o old]; [now left|].
    simpl in H. apply andb_prop in H as [Hc H].
    apply Ascii.eqb_eq in Hc as ->.
    destruct (IH _ H) as [Hx | (r & -> & Hr)].
    + left. simpl. now rewrite Ascii.eqb_refl.
    + right. now exists r.
Qed.

Lemma mem_char_app c x r : mem_char c (x +:+ r) = mem_char c x || mem_char c r.
Proof.
  induction x as [|d x IH]; simpl; [reflexivity|].
  now rewrite IH, orb_assoc.
Qed.

Lemma mem_char_snoc c x : mem_char c (x +:+ String c "") = true.
Proof.
  rewrite mem_char_app. simpl. rewrite Ascii.eqb_refl.
  now rewrite orb_true_r.
Qed.

Lemma contains_nil s : contains s "" = true.
Proof. destruct s; reflexivity. Qed.

Lemma contains_unfold c s p :
  contains (String c s) p = startswith (String c s) p || contains s p.
Proof. reflexivity. Qed.

Lemma contains_app_l a w p : contains a p = true -> contains (a +:+ w) p = true.
Proof.
  induction a as [|c a IH].
  - destruct p; [|easy]. intros _. apply contains_nil.
  - rewrite contains_unfold. intros [H|H]%orb_prop.
    + change (String c a +:+ w) with (String c (a +:+ w)).
      rewrite contains_unfold.
      change (String c (a +:+ w)) with (String c a +:+ w).
      now rewrite (startswith_app _ _ _ H).
    + change (String c a +:+ w) with (String c (a +:+ w)).
      rewrite contains_unfold, (IH H). apply orb_true_r.
Qed.

Lemma contains_app_r a s p : contains s p = true -> contains (a +:+ s) p = true.
Proof.
  intros H. induction a as [|c a IH]; [exact H|].
  change (String c a +:+ s) with (String c (a +:+ s)).
  rewrite contains_unfold, IH. apply orb_true_r.
Qed.

Lemma contains_prefix s p q : contains s (p +:+ q) = true -> contains s p = true.
Proof.
  induction s as [|c s IH].
  - change (contains "" (p +:+ q)) with (startswith "" (p +:+ q) || false).
    change (contains "" p) with (startswith "" p || false).
    rewrite !orb_false_r. apply startswith_prefix.
  - rewrite !contains_unfold. intros [H|H]%orb_prop.
    + now rewrite (startswith_prefix _ _ _ H).
    + rewrite (IH H). apply orb_true_r.
Qed.

Lemma contains_cons c t old :
  contains t old = false -> mem_char c old = false ->
  contains (String c t) old = false.
Proof.
  intros Ht Hc. rewrite contains_unfold, Ht, orb_false_r.
  destruct old as [|o old]; [now rewrite contains_nil in Ht|].
  simpl in *. apply orb_false_elim in Hc as [Hc _].
  rewrite Ascii.eqb_sym, Hc. reflexivity.
Qed.

Lemma contains_snoc t c old :
  contains t old = false -> mem_char c old = false ->
  contains (t +:+ String c "") old = false.
Proof.
  intros Ht Hc.
  induction t as [|d t IH].
  - apply contains_cons; [|exact Hc].
    destruct old; [now rewrite contains_nil in Ht | reflexivity].
  - rewrite contains_unfold in Ht. apply orb_false_elim in Ht as [Hd Ht].
    change (String d t +:+ String c "") with (String d (t +:+ String c "")).
    rewrite contains_unfold, (IH Ht), orb_false_r.
    change (String d (t +:+ String c "")) with (String d t +:+ String c "").
    destruct (startswith (String d t +:+ String c "") old) eqn:E; [|reflexivity].
    apply startswith_app_inv in E as [E | (r & -> & Hr)]; [congruence|].
    destruct r as [|c' r].
    + rewrite append_nil_r, startswith_refl in Hd. discriminate.
    + simpl in Hr. apply andb_prop in Hr as [Hr _].
      apply Ascii.eqb_eq in Hr as ->.
      rewrite mem_char_app in Hc. simpl in Hc.
      rewrite Ascii.eqb_refl, orb_true_r in Hc. discriminate.
Qed.

Lemma startswith_cross a b old c :
  mem_char c a = true -> mem_char c old = false ->
  startswith a old = false -> startswith (a +:+ b) old = false.
Proof.
  intros Ha Hold Hs.
  destruct (startswith (a +:+ b) old) eqn:E; [|reflexivity].
  apply startswith_app_inv in E as [E | (r & -> & _)]; [congruence|].
  rewrite mem_char_app, Ha in Hold. discriminate.
Qed.

Lemma no_start_unfold c a b old :
  no_start (String c a) b old
  = negb (startswith (String c a +:+ b) old) && no_start a b old.
Proof. reflexivity. Qed.

(** When the last character of [a] does not occur in [old] and [old] does
    not occur in [a], no occurrence of [old] in [a +:+ b] starts in [a]. *)
Lemma no_start_snoc x c b old :
  contains (x +:+ String c "") old = false -> mem_char c old = false ->
  no_start (x +:+ String c "") b old = true.
Proof.
  intros H Hc. induction x as [|d x IH].
  - change ("" +:+ String c "") with (String c "") in *.
    rewrite contains_unfold in H. apply orb_false_elim in H as [H _].
    rewrite no_start_unfold, (startswith_cross _ b _ c); try easy.
    simpl. now rewrite Ascii.eqb_refl.
  - change (String d x +:+ String c "") with (String d (x +:+ String c "")) in *.
    rewrite contains_unfold in H. apply orb_false_elim in H as [H1 H2].
    rewrite no_start_unfold, (IH H2), (startswith_cross _ b _ c); try easy.
    simpl. rewrite mem_char_snoc. apply orb_true_r.
Qed.

Lemma replace_go_unfold c r old new :
  replace_go 0 (String c r) old new
  = if startswith (String c r) old
    then new +:+ replace_go (String.length old - 1) r old new
    else String c (replace_go 0 r old new).
Proof. reflexivity. Qed.

Lemma replace_go_no_start a b old new :
  no_start a b old = true ->
  replace_go 0 (a +:+ b) old new = a +:+ replace_go 0 b old new.
Proof.
  induction a as [|c a IH]; [reflexivity|].
  rewrite no_start_unfold. intros [H1 H2]%andb_prop.
  apply negb_true_iff in H1.
  change (String c a +:+ b) with (String c (a +:+ b)) in *.
  rewrite replace_go_unfold, H1, (IH H2). reflexivity.
Qed.

Lemma replace_go_skip a b old new :
  replace_go (String.length a) (a +:+ b) old new = replace_go 0 b old new.
Proof. induction a as [|c a IH]; [reflexivity | exact IH]. Qed.

(** An occurrence at the head is replaced and the search goes on behind it. *)
Lemma replace_go_head old new s :
  old <> "" ->
  replace_go 0 (old +:+ s) old new = new +:+ replace_go 0 s old new.
Proof.
  destruct old as [|c o]; [easy|]. intros _.
  change (String c o +:+ s) with (String c (o +:+ s)).
  rewrite replace_go_unfold.
  change (String c (o +:+ s)) with (String c o +:+ s).
  rewrite startswith_refl_app.
  change (String.length (String c o) - 1)%nat with (String.length o - 0)%nat.
  now rewrite Nat.sub_0_r, replace_go_skip.
Qed.

(** Without an occurrence nothing is replaced. *)
Lemma replace_go_free s old new :
  contains s old = false -> replace_go 0 s old new = s.
Proof.
  induction s as [|c s IH]; [reflexivity|].
  rewrite contains_unfold. intros [H1 H2]%orb_false_elim.
  now rewrite replace_go_unfold, H1, (IH H2).
Qed.

Lemma rstrip_unfold c r :
  rstrip (String c r)
  = match rstrip r with
    | EmptyString => if isspace c then EmptyString else String c EmptyString
    | r' => String c r'
    end.
Proof. reflexivity. Qed.

Lemma rstrip_snoc_space x c : isspace c = true -> rstrip (x +:+ String c "") = rstrip x.
Proof.
  intros Hc. induction x as [|d x IH].
  - simpl. now rewrite Hc.
  - change (String d x +:+ String c "") with (String d (x +:+ String c "")).
    now rewrite !rstrip_unfold, IH.
Qed.

Lemma rstrip_snoc_nonspace x c :
  isspace c = false -> rstrip (x +:+ String c "") = x +:+ String c "".
Proof.
  intros Hc. induction x as [|d x IH].
  - simpl. now rewrite Hc.
  - change (String d x +:+ String c "") with (String d (x +:+ String c "")).
    rewrite rstrip_unfold, IH. now destruct x.
Qed.

Lemma rstrip_nonspace_head c r :
  isspace c = false -> rstrip (String c r) = String c (rstrip r).
Proof. intros Hc. rewrite rstrip_unfold, Hc. now destruct (rstrip r). Qed.

Lemma rstrip_idem s : rstrip (rstrip s) = rstrip s.
Proof.
  induction s as [|c s IH]; [reflexivity|].
  rewrite rstrip_unfold. destruct (rstrip s) as [|d r] eqn:E.
  - destruct (isspace c) eqn:Hc; [reflexivity|]. simpl. now rewrite Hc.
  - now rewrite rstrip_unfold, IH.
Qed.

Lemma rstrip_prefix s : exists w, s = rstrip s +:+ w.
Proof.
  induction s as [|c s [w IH]]; [now exists ""|].
  rewrite rstrip_unfold. destruct (rstrip s) as [|d r] eqn:E.
  - destruct (isspace c); [now exists (String c s) | now exists s].
  - exists w. simpl. now rewrite IH at 1.
Qed.

Lemma lstrip_suffix s : exists w, s = w +:+ lstrip s.
Proof.
  induction s as [|c s [w IH]]; [now exists ""|].
  simpl. destruct (isspace c); [|now exists ""].
  exists (String c w). simpl. now rewrite IH at 1.
Qed.

Lemma lstrip_head s :
  lstrip s = "" \/ exists c r, lstrip s = String c r /\ isspace c = false.
Proof.
  induction s as [|c s IH]; [now left|].
  simpl. destruct (isspace c) eqn:Hc; [exact IH|].
  right. now exists c, s.
Qed.

Lemma strip_idem s : strip (strip s) = strip s.
Proof.
  unfold strip. destruct (lstrip_head s) as [-> | (c & r & -> & Hc)]; [reflexivity|].
  rewrite (rstrip_nonspace_head _ _ Hc). simpl lstrip. rewrite Hc.
  rewrite <- (rstrip_nonspace_head _ _ Hc). apply rstrip_idem.
Qed.

Lemma strip_snoc_space s c :
  isspace c = true -> strip (s +:+ String c "") = strip s.
Proof.
  intros Hc. unfold strip. induction s as [|d s IH].
  - simpl. now rewrite Hc.
  - change (String d s +:+ String c "") with (String d (s +:+ String c "")).
    simpl lstrip. destruct (isspace d); [exact IH|].
    change (String d (s +:+ String c "")) with (String d s +:+ String c "").
    now apply rstrip_snoc_space.
Qed.

Lemma contains_strip s p : contains s p = false -> contains (strip s) p = false.
Proof.
  intros H. unfold strip.
  destruct (lstrip_suffix s) as [w Hw].
  destruct (rstrip_prefix (lstrip s)) as [w' Hw'].
  destruct (contains (rstrip (lstrip s)) p) eqn:E; [|reflexivity].
  rewrite Hw, Hw' in H.
  now rewrite (contains_app_r _ _ _ (contains_app_l _ w' _ E)) in H.
Qed.

(** *** The fence stripping of [extract_aadhaar_data] *)

Lemma contains_fence_json s : contains s "```" = false -> contains s "```json" = false.
Proof.
  intros H. destruct (contains s "```json") eqn:E; [|reflexivity].
  change "```json" with ("```" +:+ "json") in E.
  now rewrite (contains_prefix _ _ _ E) in H.
Qed.

Lemma clean_json_str_plain t :
  contains t "```" = false -> clean_json_str t = strip t.
Proof.
  intros H%contains_strip. unfold clean_json_str, replace.
  rewrite (replace_go_free _ "```json"), (replace_go_free _ "```");
    auto using contains_fence_json, strip_idem.
Qed.

Lemma strip_bounded c x d :
  isspace c = false -> isspace d = false ->
  strip (String c (x +:+ String d "")) = String c (x +:+ String d "").
Proof.
  intros Ha Hz. unfold strip. simpl lstrip. rewrite Ha.
  change (String c (x +:+ String d "")) with (String c x +:+ String d "").
  now apply rstrip_snoc_nonspace.
Qed.

Lemma strip_fenced t : strip (fenced t) = fenced t.
Proof.
  assert (E : fenced t
              = String "`" (("``json" +:+ nl +:+ t +:+ nl +:+ "``") +:+ String "`" "")).
  { unfold fenced. now rewrite !append_assoc. }
  rewrite E. now apply strip_bounded.
Qed.

Lemma clean_json_str_fenced t :
  contains t "```" = false -> clean_json_str (fenced t) = strip t.
Proof.
  intros H. unfold clean_json_str. rewrite strip_fenced.
  set (body := nl +:+ t +:+ nl).
  assert (Hbody : contains body "```" = false).
  { unfold body, nl. apply contains_cons; [|reflexivity].
    apply contains_snoc; [exact H | reflexivity]. }
  assert (Hf : fenced t = "```json" +:+ body +:+ "```").
  { unfold fenced, body. now rewrite !append_assoc. }
  assert (Hn : forall old, contains body old = false -> mem_char "010" old = false ->
                           no_start body "```" old = true).
  { intros old H1 H2. unfold body, nl in *.
    change (String "010" "" +:+ t +:+ String "010" "")
      with (String "010" t +:+ String "010" "") in *.
    now apply no_start_snoc. }
  rewrite Hf. unfold replace.
  rewrite replace_go_head by easy.
  rewrite (replace_go_no_start body "```" "```json")
    by (apply Hn; [now apply contains_fence_json | reflexivity]).
  change (replace_go 0 "```" "```json" "") with "```".
  change ("" +:+ body +:+ "```") with (body +:+ "```").
  rewrite (replace_go_no_start body "```" "```")
    by (apply Hn; [exact Hbody | reflexivity]).
  change (replace_go 0 "```" "```" "") with "".
  rewrite append_nil_r. unfold body, nl.
  rewrite <- append_assoc, strip_snoc_space by reflexivity.
  unfold strip. simpl lstrip. reflexivity.
Qed.

Lemma no_start_prefix a b p q :
  no_start a b p = true -> no_start a b (p +:+ q) = true.
Proof.
  induction a as [|c a IH]; [reflexivity|].
  rewrite !no_start_unfold. intros [H1 H2]%andb_prop.
  rewrite (IH H2), andb_true_r. apply negb_true_iff in H1.
  destruct (startswith (String c a +:+ b) (p +:+ q)) eqn:E; [|reflexivity].
  now rewrite (startswith_prefix _ _ _ E) in H1.
Qed.

Lemma string_snoc s : s = "" \/ exists x c, s = x +:+ String c "".
Proof.
  induction s as [|d s [->|(x & c & ->)]]; [now left | right..].
  - now exists "", d.
  - now exists (String d x), c.
Qed.

Lemma drop_length_app x s : drop (String.length x) (x +:+ s) = s.
Proof. induction x as [|d x IH]; [now destruct s | exact IH]. Qed.

Lemma length_snoc x c :
  String.length (x +:+ String c "") = S (String.length x).
Proof. induction x as [|d x IH]; simpl; [reflexivity | now rewrite IH]. Qed.

Lemma endswith_snoc x c d :
  endswith (x +:+ String c "") (String d "") = Ascii.eqb c d.
Proof.
  unfold endswith. rewrite length_snoc.
  change (String.length (String d "")) with 1%nat.
  rewrite Nat.sub_succ, Nat.sub_0_r, drop_length_app. simpl.
  now destruct (Ascii.eqb c d).
Qed.

Lemma strip_fenced_inline t : strip (fenced_inline t) = fenced_inline t.
Proof.
  assert (E : fenced_inline t
              = String "`" (("``json" +:+ t +:+ "``") +:+ String "`" "")).
  { unfold fenced_inline. now rewrite !append_assoc. }
  rewrite E. now apply strip_bounded.
Qed.

Lemma clean_json_str_fenced_inline t :
  contains t "```" = false -> endswith t "`" = false ->
  clean_json_str (fenced_inline t) = strip t.
Proof.
  intros H Hend. unfold clean_json_str. rewrite strip_fenced_inline.
  assert (Hn : no_start t "```" "```" = true).
  { destruct (string_snoc t) as [->|(x & c & ->)]; [reflexivity|].
    apply no_start_snoc; [exact H|].
    rewrite endswith_snoc in Hend. simpl.
    now rewrite Hend. }
  unfold fenced_inline, replace.
  rewrite replace_go_head by easy.
  rewrite (replace_go_no_start t "```" "```json")
    by apply (no_start_prefix t "```" "```" "json" Hn).
  change (replace_go 0 "```" "```json" "") with "```".
  change ("" +:+ t +:+ "```") with (t +:+ "```").
  rewrite (replace_go_no_start t "```" "```") by exact Hn.
  change (replace_go 0 "```" "```" "") with "".
  now rewrite append_nil_r.
Qed.

End StringFacts.

(** ** Running main.py *)

Section MonadFacts.

Context {A B : Type}.

Lemma bind_ok (c : M A) (k : A -> M B) st a st' :
  c st = (Ok a, st') -> bind c k st = k a st'.
Proof. intros H. unfold bind. now rewrite H. Qed.

Lemma bind_raise (c : M A) (k : A -> M B) st e st' :
  c st = (Raise e, st') -> bind c k st = (Raise e, st').
Proof. intros H. unfold bind. now rewrite H. Qed.

Lemma try_except_ok (c : M A) h st a st' :
  c st = (Ok a, st') -> try_except c h st = (Ok a, st').
Proof. intros H. unfold try_except. now rewrite H. Qed.

Lemma try_except_raise (c : M A) h st e st' :
  c st = (Raise e, st') -> try_except c h st = h e st'.
Proof. intros H. unfold try_except. now rewrite H. Qed.

End MonadFacts.

Section Validator.

Variable W : World.

Lemma validate_pdf_extension filename content st :
  endswith (lower filename) ".pdf" = false ->
  validate_pdf W filename content st = (Ok false, st).
Proof. intros H. unfold validate_pdf. now rewrite H. Qed.

(** In a fitz without the name [FitzError], the handler of [validate_pdf]
    raises the [AttributeError] instead of returning [False]. *)
Lemma validate_pdf_no_handler filename content st e attribute_error :
  endswith (lower filename) ".pdf" = true ->
  fitz_FitzError W = Raise attribute_error ->
  fitz_open W content = Raise e ->
  validate_pdf W filename content st
  = (Raise attribute_error, logged [FitzOpenStream "pdf"] st).
Proof.
  intros Hx Hf Ho. unfold validate_pdf, fitz_open_stream, logged. unfold_monad.
  rewrite Hx. simpl. now rewrite Ho, Hf.
Qed.

(** An upload that the validator turns down is answered with status 400. *)
Lemma extract_aadhaar_invalid aadhaar st :
  fst (validate_pdf W (filename aadhaar) (file aadhaar) st) = Ok false ->
  fst (extract_aadhaar W aadhaar st)
  = Ok {| status_code := 400;
          content := error_content
                       ("File " +:+ filename aadhaar +:+ " must be a valid PDF") |}.
Proof.
  intros H. unfold extract_aadhaar, extract_aadhaar_try. unfold_monad.
  destruct (validate_pdf W (filename aadhaar) (file aadhaar) st) as [[b|e] st1].
  - simpl in H. injection H as ->. reflexivity.
  - discriminate.
Qed.

End Validator.

Section Rasterizer.

Variable W : World.

(** The rasterizer on a document without pages: the [try] raises the
    invalid-input exception, that the handler turns into [None]. *)
Lemma convert_pdf_to_image_no_pages path content doc st :
  fs st !! path = Some content ->
  fitz_open W content = Ok doc ->
  page_count doc < 1 ->
  fst (convert_pdf_to_image_try W path st)
    = Raise (HTTPException 400 "PDF has no pages.")
  /\ fst (convert_pdf_to_image W path st) = Ok None.
Proof.
  intros Hfs Hopen Hn. apply Z.ltb_lt in Hn.
  unfold convert_pdf_to_image, convert_pdf_to_image_try, fitz_open_path.
  unfold_monad. simpl. now rewrite Hfs, Hopen, Hn.
Qed.

(** The rasterizer on a document whose first page renders. *)
Lemma convert_pdf_to_image_first_page path content doc page pix png st :
  fs st !! path = Some content ->
  fitz_open W content = Ok doc ->
  1 <= page_count doc ->
  load_page doc 0 = Ok page ->
  get_pixmap page = Ok pix ->
  tobytes pix "png" = Ok png ->
  close doc = Ok tt ->
  convert_pdf_to_image W path st
  = (Ok (Some {| getvalue := png |}),
     logged [FitzOpenPath path; LoadPage 0; GetPixmap; ToBytes "png"; Close] st).
Proof.
  intros Hfs Hopen Hn Hpage Hpix Hpng Hclose.
  assert (Hn' : (page_count doc <? 1) = false) by now apply Z.ltb_ge.
  unfold convert_pdf_to_image, convert_pdf_to_image_try, fitz_open_path, logged.
  unfold_monad. simpl.
  rewrite Hfs, Hopen, Hn', Hpage, Hpix, Hpng, Hclose. simpl.
  now rewrite <- !app_assoc.
Qed.

(** The calls that one run of the rasterizer makes on fitz objects. *)
Lemma convert_pdf_to_image_calls path st :
  exists cs,
    fitz_calls (snd (convert_pdf_to_image W path st)) = fitz_calls st ++ cs
    /\ (cs = [FitzOpenPath path]
        \/ exists rest, cs = FitzOpenPath path :: LoadPage 0 :: rest
                        /\ forall n, ~ In (LoadPage n) rest).
Proof.
  unfold convert_pdf_to_image, convert_pdf_to_image_try, fitz_open_path.
  unfold_monad. simpl.
  destruct (match fs st !! path with Some c => fitz_open W c | None => _ end)
    as [doc|e]; simpl.
  2: { exists [FitzOpenPath path]. now split; [|left]. }
  destruct (page_count doc <? 1); simpl.
  { exists [FitzOpenPath path]. now split; [|left]. }
  destruct (load_page doc 0) as [page|e]; simpl.
  2: { exists [FitzOpenPath path; LoadPage 0].
       split; [now rewrite <- app_assoc|]. right. now exists []. }
  destruct (get_pixmap page) as [pix|e]; simpl.
  2: { exists [FitzOpenPath path; LoadPage 0; GetPixmap].
       split; [now rewrite <- !app_assoc|]. right. exists [GetPixmap].
       split; [reflexivity|]. intros n [H|[]]. discriminate. }
  destruct (tobytes pix "png") as [png|e]; simpl.
  2: { exists [FitzOpenPath path; LoadPage 0; GetPixmap; ToBytes "png"].
       split; [now rewrite <- !app_assoc|]. right. exists [GetPixmap; ToBytes "png"].
       split; [reflexivity|]. intros n [H|[H|[]]]; discriminate. }
  exists [FitzOpenPath path; LoadPage 0; GetPixmap; ToBytes "png"; Close].
  split.
  - destruct (close doc) as [[]|e]; simpl; now rewrite <- !app_assoc.
  - right. exists [GetPixmap; ToBytes "png"; Close].
    split; [reflexivity|]. intros n [H|[H|[H|[]]]]; discriminate.
Qed.

Lemma convert_pdf_to_image_fs path st :
  fs (snd (convert_pdf_to_image W path st)) = fs st.
Proof.
  unfold convert_pdf_to_image, convert_pdf_to_image_try, fitz_open_path.
  unfold_monad. simpl.
  repeat (case_outcome; simpl; try reflexivity).
Qed.

(** The rasterizer catches every exception. *)
Lemma convert_pdf_to_image_returns path st :
  exists img, fst (convert_pdf_to_image W path st) = Ok img.
Proof.
  unfold convert_pdf_to_image. unfold_monad.
  destruct (convert_pdf_to_image_try W path st) as [[img|e] st']; simpl; eauto.
Qed.

End Rasterizer.

Section Extractor.

Variable W : World.

(** What [extract_aadhaar_data] returns once the model has answered. *)
Lemma extract_aadhaar_data_run image_source response st :
  response_text W image_source = Ok response ->
  extract_aadhaar_data W image_source st
  = match json_loads W (clean_json_str response) with
    | Ok v => (Ok v, st)
    | Raise (JSONDecodeError m) =>
        (Ok PyNone,
         snd (print "Failed to decode JSON response from AI." st))
    | Raise e =>
        (Ok PyNone,
         snd (print ("Error extracting Aadhaar data: " +:+ str e) st))
    end.
Proof.
  unfold response_text, extract_aadhaar_data. unfold_monad.
  destruct (GenerativeModel W "gemini-1.5-flash") as [model|]; [|easy].
  destruct (PIL_Image_open W (getvalue image_source)) as [img|]; [|easy].
  destruct (generate_content model prompt img) as [resp|]; [|easy].
  intros ->.
  now destruct (json_loads W (clean_json_str response)) as [v|[]].
Qed.

Lemma extract_aadhaar_data_fs image_source st :
  fs (snd (extract_aadhaar_data W image_source st)) = fs st.
Proof.
  unfold extract_aadhaar_data. unfold_monad.
  repeat (case_outcome; simpl; try reflexivity).
Qed.

End Extractor.

Section Orchestrator.

Variable W : World.

Lemma extract_aadhaar_try_stages aadhaar st st1 st2 :
  validate_pdf W (filename aadhaar) (file aadhaar) st = (Ok true, st1) ->
  open_wb_write W (temp_filename W) (file aadhaar) st1 = (Ok tt, st2) ->
  extract_aadhaar_try W aadhaar st
  = bind (convert_pdf_to_image W (temp_filename W))
      (fun img_data =>
         match img_data with
         | None =>
             raise (HTTPException 400 ("Failed to process " +:+ filename aadhaar))
         | Some img_data =>
             let! aadhaar_data := extract_aadhaar_data W img_data in
             if negb (truthy aadhaar_data)
             then raise (HTTPException 400
                           ("Failed to extract data from " +:+ filename aadhaar))
             else
               let! _ := try_except (os_remove W (temp_filename W))
                           (fun e =>
                              print ("Error deleting temporary file: " +:+ str e)) in
               new_JSONResponse W 200 aadhaar_data
         end) st2.
Proof.
  intros Hv Hw. unfold extract_aadhaar_try.
  rewrite (bind_ok _ _ _ _ _ Hv). cbv beta iota delta [negb].
  now rewrite (bind_ok _ _ _ _ _ Hw).
Qed.

Lemma extract_aadhaar_stages aadhaar st st1 st2 :
  validate_pdf W (filename aadhaar) (file aadhaar) st = (Ok true, st1) ->
  open_wb_write W (temp_filename W) (file aadhaar) st1 = (Ok tt, st2) ->
  extract_aadhaar W aadhaar st
  = match convert_pdf_to_image W (temp_filename W) st2 with
    | (Ok (Some img_data), st3) => after_rasterization W aadhaar img_data st3
    | (Ok None, st3) =>
        (Ok {| status_code := 400;
               content := error_content
                            ("Failed to process " +:+ filename aadhaar) |}, st3)
    | (Raise e, st3) => error_response W e st3
    end.
Proof.
  intros Hv Hw. unfold extract_aadhaar, after_rasterization, try_except.
  rewrite (extract_aadhaar_try_stages _ _ _ _ Hv Hw). unfold bind at 1.
  now destruct (convert_pdf_to_image W (temp_filename W) st2) as [[[i|]|e] st3].
Qed.


Lemma open_wb_write_fs path content st st' :
  open_wb_write W path content st = (Ok tt, st') ->
  fs st' !! path = Some content.
Proof.
  unfold open_wb_write. destruct (open_wb_error W path); [easy|].
  destruct (write_error W path content) as [[e written]|]; [easy|].
  intros [= <-]. simpl. apply lookup_insert_eq.
Qed.

Lemma open_wb_write_error path content st e :
  open_wb_error W path = Some e ->
  open_wb_write W path content st = (Raise e, st).
Proof. intros H. unfold open_wb_write. now rewrite H. Qed.

(** An absent extraction result is answered with status 400, at once. *)
Lemma after_rasterization_absent aadhaar img_data st3 aadhaar_data st4 :
  extract_aadhaar_data W img_data st3 = (Ok aadhaar_data, st4) ->
  truthy aadhaar_data = false ->
  after_rasterization W aadhaar img_data st3
  = (Ok {| status_code := 400;
           content := error_content
                        ("Failed to extract data from " +:+ filename aadhaar) |},
     st4).
Proof.
  intros He Ht. unfold after_rasterization, try_except at 1.
  now rewrite (bind_ok _ _ _ _ _ He), Ht.
Qed.

(** The scratch file outlives a request that ends on an absent image or an
    absent extraction result: nothing removes it on these paths. *)
Lemma scratch_file_outlives_failure aadhaar st st1 st2 r :
  validate_pdf W (filename aadhaar) (file aadhaar) st = (Ok true, st1) ->
  open_wb_write W (temp_filename W) (file aadhaar) st1 = (Ok tt, st2) ->
  (forall v, is_HTTPException (render_error W v) = false) ->
  fst (extract_aadhaar W aadhaar st) = Ok r ->
  status_code r = 400 ->
  fs (snd (extract_aadhaar W aadhaar st)) !! temp_filename W
  = Some (file aadhaar).
Proof.
  intros Hv Hw Hrender. rewrite (extract_aadhaar_stages _ _ _ _ Hv Hw).
  pose proof (convert_pdf_to_image_fs W (temp_filename W) st2) as Hfs.
  pose proof (open_wb_write_fs _ _ _ _ Hw) as Hfile.
  destruct (convert_pdf_to_image_returns W (temp_filename W) st2) as [img Hc].
  destruct (convert_pdf_to_image W (temp_filename W) st2) as [[[i|]|e] st3];
    simpl in Hc, Hfs; try discriminate.
  2: { intros _ _. simpl. now rewrite Hfs. }
  pose proof (extract_aadhaar_data_fs W i st3) as Hfs'.
  remember (after_rasterization W aadhaar i st3) as run eqn:Er.
  unfold after_rasterization, try_except at 1 in Er. unfold bind at 1 in Er.
  destruct (extract_aadhaar_data W i st3) as [[d|e] st4]; simpl in Hfs'.
  - destruct (truthy d); cbv beta iota delta [negb] in Er.
    + unfold bind, try_except, ret, print, new_JSONResponse, raise in Er.
      specialize (Hrender d).
      destruct (os_remove W (temp_filename W) st4) as [[[]|e] st5];
        simpl in Er; destruct (json_compliant d);
        try (destruct (render_error W d); try discriminate Hrender);
        simpl in Er; subst run; simpl; intros [= <-]; discriminate.
    + unfold raise in Er. simpl in Er. subst run. intros _ _. simpl.
      now rewrite Hfs', Hfs.
  - intros _ _. destruct e; simpl in Er; subst run; simpl; now rewrite Hfs', Hfs.
Qed.

End Orchestrator.

(** * The properties of the specification *)

(** ** Document validator *)

(** Without the name [FitzError] in fitz, the validator returns [False] for
    the filename only, never for the content. *)
Lemma validate_pdf_false_by_name_only W filename content st attribute_error :
  fitz_FitzError W = Raise attribute_error ->
  fst (validate_pdf W filename content st) = Ok false ->
  endswith (lower filename) ".pdf" = false.
Proof.
  intros Hf. unfold validate_pdf, fitz_open_stream. unfold_monad. rewrite Hf.
  destruct (endswith (lower filename) ".pdf"); [|reflexivity]. simpl.
  destruct (fitz_open W content) as [doc|]; [|easy].
  now destruct (close doc) as [[]|].
Qed.

(** C2 (the code does not do it).  [validate_pdf] is to return [False] for
    a content that does not parse.  On the text below, under a ".pdf" name,
    [fitz.open] raises, the [except] clause looks up [fitz.FitzError], which
    PyMuPDF does not define, and the function raises the [AttributeError]
    instead of returning a boolean. *)
Theorem validate_pdf_raises_on_unparseable_content :
  let W := Sample.world 1 Sample.broken None (Ok "") in
  fst (validate_pdf W "card.pdf" Sample.text_bytes Sample.st0)
  = Raise (OtherException "AttributeError"
             "module 'fitz' has no attribute 'FitzError'")
  /\ ~ exists valid : bool,
         fst (validate_pdf W "card.pdf" Sample.text_bytes Sample.st0) = Ok valid.
Proof. split; [reflexivity|]. intros [valid H]. discriminate H. Qed.

(** An upload whose filename, lower-cased, does not end in ".pdf" is turned
    down by the validator and answered 400 with
    "File <filename> must be a valid PDF"; so is every upload named
    "card.txt". *)
Lemma other_extension_answered_400 W :
  (forall aadhaar st,
     endswith (lower (filename aadhaar)) ".pdf" = false ->
     fst (validate_pdf W (filename aadhaar) (file aadhaar) st) = Ok false
     /\ fst (extract_aadhaar W aadhaar st)
        = Ok {| status_code := 400;
                content := error_content
                  ("File " +:+ filename aadhaar +:+ " must be a valid PDF") |})
  /\ (forall content st,
        fst (extract_aadhaar W {| filename := "card.txt"; file := content |} st)
        = Ok {| status_code := 400;
                content := error_content "File card.txt must be a valid PDF" |}).
Proof.
  assert (H : forall aadhaar st,
             endswith (lower (filename aadhaar)) ".pdf" = false ->
             fst (validate_pdf W (filename aadhaar) (file aadhaar) st) = Ok false)
    by (intros aadhaar st Hx; now rewrite validate_pdf_extension).
  split.
  - intros aadhaar st Hx. split; [now apply H|].
    apply extract_aadhaar_invalid. now apply H.
  - intros content st.
    apply (extract_aadhaar_invalid W {| filename := "card.txt"; file := content |}).
    now apply H.
Qed.

(** C7 (the code does not do it).  An upload whose content does not parse
    as a PDF is to be answered 400 with "File <filename> must be a valid
    PDF".  For the text below, uploaded as "card.pdf", the validator raises
    (see C2) and the endpoint answers 500 with the text of the
    [AttributeError]. *)
Theorem unparseable_pdf_answered_500 :
  let W := Sample.world 1 Sample.broken None (Ok Sample.record_json) in
  fst (extract_aadhaar W {| filename := "card.pdf"; file := Sample.text_bytes |}
         Sample.st0)
  = Ok {| status_code := 500;
          content := PyDict [("error",
                              PyStr "module 'fitz' has no attribute 'FitzError'")] |}.
Proof. reflexivity. Qed.

(** In general: whatever fitz raises on the content of a ".pdf" upload, a
    fitz without [FitzError] makes the endpoint answer 500. *)
Lemma unparseable_content_answered_500 W aadhaar st e attribute_error :
  endswith (lower (filename aadhaar)) ".pdf" = true ->
  fitz_FitzError W = Raise attribute_error ->
  is_HTTPException attribute_error = false ->
  fitz_open W (file aadhaar) = Raise e ->
  fst (extract_aadhaar W aadhaar st)
  = Ok {| status_code := 500; content := error_content (str attribute_error) |}.
Proof.
  intros Hx Hf Ha Ho. unfold extract_aadhaar, extract_aadhaar_try.
  unfold try_except at 1.
  rewrite (bind_raise _ _ _ _ _
             (validate_pdf_no_handler W _ _ st e attribute_error Hx Hf Ho)).
  now destruct attribute_error.
Qed.

(** ** Page rasterizer *)

(** C3.  For an upload that passes validation and whose document has no
    page, the rasterizer raises the invalid-input exception (400, "PDF has no
    pages."), which it reports as an absent image, and the endpoint answers
    with status 400. *)
Theorem zero_page_document_answered_400 W aadhaar st st1 st2 doc :
  validate_pdf W (filename aadhaar) (file aadhaar) st = (Ok true, st1) ->
  open_wb_write W (temp_filename W) (file aadhaar) st1 = (Ok tt, st2) ->
  fitz_open W (file aadhaar) = Ok doc ->
  page_count doc = 0 ->
  fst (convert_pdf_to_image_try W (temp_filename W) st2)
    = Raise (HTTPException 400 "PDF has no pages.")
  /\ fst (convert_pdf_to_image W (temp_filename W) st2) = Ok None
  /\ fst (extract_aadhaar W aadhaar st)
     = Ok {| status_code := 400;
             content := error_content ("Failed to process " +:+ filename aadhaar) |}.
Proof.
  intros Hv Hw Hopen Hn.
  destruct (convert_pdf_to_image_no_pages W (temp_filename W) (file aadhaar) doc st2)
    as [Ht Hc]; [now apply (open_wb_write_fs W _ _ st1) | exact Hopen | lia |].
  repeat split; [exact Ht | exact Hc |].
  rewrite (extract_aadhaar_stages W _ _ _ _ Hv Hw).
  destruct (convert_pdf_to_image W (temp_filename W) st2) as [[[i|]|e] st3];
    simpl in Hc; try discriminate. reflexivity.
Qed.

Lemma zero_page_document_witness :
  fst (extract_aadhaar (Sample.world 0 Sample.broken None (Ok Sample.record_json))
         Sample.card_pdf Sample.st0)
  = Ok {| status_code := 400; content := error_content "Failed to process card.pdf" |}.
Proof.
  refine (proj2 (proj2 (zero_page_document_answered_400
            (Sample.world 0 Sample.broken None (Ok Sample.record_json))
            Sample.card_pdf Sample.st0 _ _ (Sample.document 0) _ _ _ _)));
    reflexivity.
Defined.

(** C10.  Whatever the page count of a valid document, the rasterizer
    returns the rendering of its page 0, and page 0 is the only page that a
    run of the rasterizer ever loads. *)
Theorem rasterizer_first_page_only W path st :
  (forall content doc page pix png,
     fs st !! path = Some content ->
     fitz_open W content = Ok doc ->
     1 <= page_count doc ->
     load_page doc 0 = Ok page ->
     get_pixmap page = Ok pix ->
     tobytes pix "png" = Ok png ->
     close doc = Ok tt ->
     convert_pdf_to_image W path st
     = (Ok (Some {| getvalue := png |}),
        logged [FitzOpenPath path; LoadPage 0; GetPixmap; ToBytes "png"; Close] st))
  /\ exists calls,
       fitz_calls (snd (convert_pdf_to_image W path st)) = fitz_calls st ++ calls
       /\ forall n, In (LoadPage n) calls -> n = 0.
Proof.
  split.
  - intros content doc page pix png. apply convert_pdf_to_image_first_page.
  - destruct (convert_pdf_to_image_calls W path st)
      as (calls & E & [-> | (rest & -> & Hrest)]);
      exists calls || (eexists; split; [exact E|]).
    + intros n [H|[]]. discriminate.
    + intros n [H|[H|H]]; [discriminate | now injection H | now apply Hrest in H].
Qed.

Lemma rasterizer_first_page_witness :
  let W := Sample.world 3 Sample.broken None (Ok Sample.record_json) in
  let st := {| fs := {[ Sample.scratch := Sample.pdf_bytes ]};
               stdout := []; fitz_calls := [] |} in
  convert_pdf_to_image W Sample.scratch st
  = (Ok (Some {| getvalue := list_byte_of_string "png of page 0" |}),
     logged [FitzOpenPath Sample.scratch; LoadPage 0; GetPixmap; ToBytes "png";
             Close] st).
Proof.
  intros W st.
  apply (proj1 (rasterizer_first_page_only W Sample.scratch st)
           Sample.pdf_bytes (Sample.document 3) (Sample.page 0)
           {| tobytes := fun fmt =>
                Ok (list_byte_of_string (fmt +:+ " of page " +:+ pretty 0)) |});
    try reflexivity.
  simpl. lia.
Defined.

(** ** Field extractor *)

(** C9.  When the cleaned response text of the model is valid JSON,
    [extract_aadhaar_data] returns the parsed value as it is, whatever its
    keys, fields and types: nothing but the parse is checked. *)
Theorem extract_aadhaar_data_returns_parsed_value W image_source st response v :
  response_text W image_source = Ok response ->
  json_loads W (clean_json_str response) = Ok v ->
  extract_aadhaar_data W image_source st = (Ok v, st).
Proof.
  intros Hr Hv. now rewrite (extract_aadhaar_data_run W _ _ _ Hr), Hv.
Qed.

Lemma extract_aadhaar_data_witness :
  extract_aadhaar_data (Sample.world 1 Sample.broken None (Ok "[1, null, {}]"))
    {| getvalue := [] |} Sample.st0
  = (Ok (PyList [PyInt 1; PyNone; PyDict []]), Sample.st0).
Proof.
  apply (extract_aadhaar_data_returns_parsed_value
           (Sample.world 1 Sample.broken None (Ok "[1, null, {}]"))
           {| getvalue := [] |} Sample.st0 "[1, null, {}]");
    vm_compute; reflexivity.
Defined.



(** C4.  When the cleaned response text parses as JSON to a value that
    Python takes for false (an empty object, array or string, null, zero),
    the endpoint treats the result as absent and answers 400 with
    "Failed to extract data from <filename>". *)
Theorem falsy_json_answered_400 W aadhaar st st1 st2 st3 img response v :
  validate_pdf W (filename aadhaar) (file aadhaar) st = (Ok true, st1) ->
  open_wb_write W (temp_filename W) (file aadhaar) st1 = (Ok tt, st2) ->
  convert_pdf_to_image W (temp_filename W) st2 = (Ok (Some img), st3) ->
  response_text W img = Ok response ->
  json_loads W (clean_json_str response) = Ok v ->
  truthy v = false ->
  extract_aadhaar W aadhaar st
  = (Ok {| status_code := 400;
           content := error_content
                        ("Failed to extract data from " +:+ filename aadhaar) |},
     st3).
Proof.
  intros Hv Hw Hc Hr Hj Ht.
  pose proof (extract_aadhaar_data_run W img response st3 Hr) as Hd.
  rewrite Hj in Hd.
  rewrite (extract_aadhaar_stages W _ _ _ _ Hv Hw), Hc.
  exact (after_rasterization_absent W _ _ _ _ _ Hd Ht).
Qed.

Lemma falsy_json_witness :
  fst (extract_aadhaar (Sample.world 1 Sample.broken None (Ok "{}"))
         Sample.card_pdf Sample.st0)
  = Ok {| status_code := 400;
          content := error_content "Failed to extract data from card.pdf" |}.
Proof.
  refine (f_equal fst (falsy_json_answered_400
            (Sample.world 1 Sample.broken None (Ok "{}"))
            Sample.card_pdf Sample.st0 _ _ _ _ "{}" (PyDict []) _ _ _ _ _ _));
    reflexivity.
Defined.

(** The values that [if not aadhaar_data] takes for absent. *)
Example falsy_values :
  map truthy [PyDict []; PyList []; PyNone; PyInt 0; PyStr "";
              PyBool false; PyFloat (S754_zero false); PyFloat (S754_zero true)]
  = [false; false; false; false; false; false; false; false].
Proof. reflexivity. Qed.

(** C5, as amended.  For a text [t] in which the delimiter "```" does not
    occur, stripping the fences of [t] wrapped in "```json" and "```" (on
    lines of their own, or directly around a [t] that does not end in a
    backtick) leaves [t] without its surrounding white space, the very text
    that the extractor derives from [t] unwrapped; it parses to the value of
    [t] whenever [json.loads] disregards the white space around [t]. *)
Theorem fence_stripping_round_trip W t :
  contains t "```" = false ->
  json_loads W (strip t) = json_loads W t ->
  clean_json_str (fenced t) = clean_json_str t
  /\ json_loads W (clean_json_str (fenced t)) = json_loads W t
  /\ (endswith t "`" = false ->
      clean_json_str (fenced_inline t) = clean_json_str t
      /\ json_loads W (clean_json_str (fenced_inline t)) = json_loads W t).
Proof.
  intros Hfree Hws.
  pose proof (clean_json_str_fenced t Hfree) as E.
  pose proof (clean_json_str_plain t Hfree) as E'.
  split; [congruence|]. split; [congruence|].
  intros Hend. pose proof (clean_json_str_fenced_inline t Hfree Hend).
  split; congruence.
Qed.

Lemma fence_stripping_witness :
  let W := Sample.world 1 Sample.broken None (Ok (fenced Sample.record_json)) in
  clean_json_str (fenced Sample.record_json) = clean_json_str Sample.record_json
  /\ json_loads W (clean_json_str (fenced Sample.record_json))
     = json_loads W Sample.record_json
  /\ clean_json_str (fenced_inline Sample.record_json)
     = clean_json_str Sample.record_json
  /\ json_loads W (clean_json_str (fenced_inline Sample.record_json))
     = json_loads W Sample.record_json.
Proof.
  intros W.
  assert (Hfree : contains Sample.record_json "```" = false)
    by (vm_compute; reflexivity).
  assert (Hws : json_loads W (strip Sample.record_json)
                = json_loads W Sample.record_json)
    by (vm_compute; reflexivity).
  assert (Hend : endswith Sample.record_json "`" = false)
    by (vm_compute; reflexivity).
  destruct (fence_stripping_round_trip W Sample.record_json Hfree Hws)
    as (Hlines & Hvalue & Hinline).
  destruct (Hinline Hend) as [Htext Hvalue'].
  repeat split; assumption.
Defined.

(** C5 as stated fails: every "```" is deleted, also inside a JSON string,
    so the fenced text parses to another value than the text itself. *)
Lemma fence_stripping_changes_value :
  let t := "{" +:+ Sample.jstr "address" +:+ ": "
           +:+ Sample.jstr "Flat ```B```, MG Road" +:+ "}" in
  Sample.loads t = Ok (PyDict [("address", PyStr "Flat ```B```, MG Road")])
  /\ Sample.loads (clean_json_str (fenced t))
     = Ok (PyDict [("address", PyStr "Flat B, MG Road")])
  /\ Sample.loads (clean_json_str (fenced t)) <> Sample.loads t.
Proof. intros t. repeat split; vm_compute; try reflexivity. discriminate. Qed.

(** ** Request orchestrator *)

Lemma write_failure_uncaught W aadhaar st st1 e :
  validate_pdf W (filename aadhaar) (file aadhaar) st = (Ok true, st1) ->
  open_wb_error W (temp_filename W) = Some e ->
  extract_aadhaar_try W aadhaar st = (Raise e, st1).
Proof.
  intros Hv Hw. unfold extract_aadhaar_try.
  rewrite (bind_ok _ _ _ _ _ Hv). cbv beta iota delta [negb].
  now rewrite (bind_raise _ _ _ _ _ (open_wb_write_error W _ _ _ _ Hw)).
Qed.

Lemma model_failure_uncaught W aadhaar st st1 st2 st3 img e :
  validate_pdf W (filename aadhaar) (file aadhaar) st = (Ok true, st1) ->
  open_wb_write W (temp_filename W) (file aadhaar) st1 = (Ok tt, st2) ->
  convert_pdf_to_image W (temp_filename W) st2 = (Ok (Some img), st3) ->
  GenerativeModel W "gemini-1.5-flash" = Raise e ->
  extract_aadhaar_try W aadhaar st = (Raise e, st3).
Proof.
  intros Hv Hw Hc Hm.
  rewrite (extract_aadhaar_try_stages W _ _ _ _ Hv Hw), (bind_ok _ _ _ _ _ Hc).
  unfold extract_aadhaar_data, bind at 1, bind at 1, lift. now rewrite Hm.
Qed.

Lemma error_response_unexpected W e st :
  is_HTTPException e = false ->
  error_response W e st
  = (Ok {| status_code := 500; content := PyDict [("error", PyStr (str e))] |}, st).
Proof. now destruct e. Qed.

(** C8.  After validation, an exception that leaves the pipeline, other than
    the [HTTPException]s by which the pipeline itself reports its 400s, is
    answered with status 500 and the body {"error": str(e)}; such are the
    exceptions of the write of the scratch file and of the construction of
    the model. *)
Theorem uncaught_exception_answered_500 W aadhaar st st1 e :
  validate_pdf W (filename aadhaar) (file aadhaar) st = (Ok true, st1) ->
  is_HTTPException e = false ->
  let internal_error :=
    {| status_code := 500; content := PyDict [("error", PyStr (str e))] |} in
  (forall st',
     extract_aadhaar_try W aadhaar st = (Raise e, st') ->
     extract_aadhaar W aadhaar st = (Ok internal_error, st'))
  /\ (open_wb_error W (temp_filename W) = Some e ->
      extract_aadhaar W aadhaar st = (Ok internal_error, st1))
  /\ (forall st2 st3 img,
        open_wb_write W (temp_filename W) (file aadhaar) st1 = (Ok tt, st2) ->
        convert_pdf_to_image W (temp_filename W) st2 = (Ok (Some img), st3) ->
        GenerativeModel W "gemini-1.5-flash" = Raise e ->
        extract_aadhaar W aadhaar st = (Ok internal_error, st3)).
Proof.
  intros Hv He internal_error.
  assert (H : forall st', extract_aadhaar_try W aadhaar st = (Raise e, st') ->
                          extract_aadhaar W aadhaar st = (Ok internal_error, st')).
  { intros st' Hr. unfold extract_aadhaar.
    rewrite (try_except_raise _ _ _ _ _ Hr). now apply error_response_unexpected. }
  repeat split.
  - exact H.
  - intros Hw. apply H. now apply write_failure_uncaught.
  - intros st2 st3 img Hw Hc Hm. apply H.
    now apply (model_failure_uncaught W aadhaar st st1 st2 st3 img).
Qed.

Lemma uncaught_exception_witness :
  fst (extract_aadhaar
         (Sample.world 1 Sample.broken
            (Some (OtherException "OSError" "[Errno 28] No space left on device"))
            (Ok Sample.record_json))
         Sample.card_pdf Sample.st0)
  = Ok {| status_code := 500;
          content := PyDict [("error", PyStr "[Errno 28] No space left on device")] |}.
Proof.
  refine (f_equal fst (proj1 (proj2 (uncaught_exception_answered_500
            (Sample.world 1 Sample.broken
               (Some (OtherException "OSError" "[Errno 28] No space left on device"))
               (Ok Sample.record_json))
            Sample.card_pdf Sample.st0 _
            (OtherException "OSError" "[Errno 28] No space left on device")
            _ _)) _));
    reflexivity.
Defined.

(** C1 (the code does not do it).  The scratch file is to be gone when the
    request completes, on every exit path.  In the request below the model's
    answer is not JSON: the endpoint answers 400 "Failed to extract data from
    card.pdf", and the scratch file written for the request is still there. *)
Theorem scratch_file_left_after_failed_extraction :
  let W := Sample.world 1 Sample.broken None (Ok "I cannot process this image") in
  fst (extract_aadhaar W Sample.card_pdf Sample.st0)
  = Ok {| status_code := 400;
          content := error_content "Failed to extract data from card.pdf" |}
  /\ fs (snd (extract_aadhaar W Sample.card_pdf Sample.st0)) !! temp_filename W
     = Some (file Sample.card_pdf).
Proof. intros W. split; vm_compute; reflexivity. Qed.

(** So it is after a failed rasterization. *)
Lemma scratch_file_left_after_failed_rasterization :
  let W := Sample.world 0 Sample.broken None (Ok Sample.record_json) in
  fst (extract_aadhaar W Sample.card_pdf Sample.st0)
  = Ok {| status_code := 400; content := error_content "Failed to process card.pdf" |}
  /\ fs (snd (extract_aadhaar W Sample.card_pdf Sample.st0)) !! temp_filename W
     = Some (file Sample.card_pdf).
Proof. intros W. split; vm_compute; reflexivity. Qed.

(** On the success path the file is removed. *)
Lemma scratch_file_removed_on_success :
  let W := Sample.world 1 Sample.broken None (Ok (fenced Sample.record_json)) in
  fst (extract_aadhaar W Sample.card_pdf Sample.st0)
  = Ok {| status_code := 200; content := Sample.record_value |}
  /\ fs (snd (extract_aadhaar W Sample.card_pdf Sample.st0)) !! temp_filename W
     = None.
Proof. intros W. split; vm_compute; reflexivity. Qed.

(** ** Examples of the string functions *)

Example replace_fences : replace "a```b```json c" "```json" "" = "a```b c".
Proof. reflexivity. Qed.

Example replace_leftmost : replace "aaaa" "aa" "b" = "bb".
Proof. reflexivity. Qed.

Example replace_empty_old : replace "abc" "" "-" = "-a-b-c-".
Proof. reflexivity. Qed.

Example strip_both_ends :
  strip (String "010" "  x y  " +:+ String "009" "") = "x y".
Proof. reflexivity. Qed.

Example endswith_lower : endswith (lower "Card.PDF") ".pdf" = true.
Proof. reflexivity. Qed.

Example endswith_short : endswith "pdf" ".pdf" = false.
Proof. reflexivity. Qed.

Example loads_record : Sample.loads Sample.record_json = Ok Sample.record_value.
Proof. vm_compute. reflexivity. Qed.

Example loads_not_json :
  Sample.loads "I cannot process this image"
  = Raise (JSONDecodeError "Expecting value").
Proof. reflexivity. Qed.

(** * Further properties of main.py *)

(** ** The fence stripping of lines 85-86 *)

Section FenceFacts.

Implicit Types s t : string.

Lemma startswith_cons c s d p :
  startswith (String c s) (String d p) = Ascii.eqb d c && startswith s p.
Proof. reflexivity. Qed.

Lemma replace_fence_head s :
  startswith (replace_go 0 s "```" "") "`" = true -> startswith s "`" = true.
Proof.
  destruct s as [|c s]; [easy|]. rewrite replace_go_unfold.
  destruct (startswith (String c s) "```") eqn:E.
  - intros _. change "```" with ("`" +:+ "``") in E.
    exact (startswith_prefix _ _ _ E).
  - now rewrite !startswith_cons, !startswith_nil.
Qed.

Lemma replace_fence_head2 s :
  startswith (replace_go 0 s "```" "") "``" = true -> startswith s "``" = true.
Proof.
  destruct s as [|c s]; [easy|]. rewrite replace_go_unfold.
  destruct (startswith (String c s) "```") eqn:E.
  - intros _. change "```" with ("``" +:+ "`") in E.
    exact (startswith_prefix _ _ _ E).
  - rewrite !startswith_cons. intros [-> H]%andb_prop.
    now rewrite (replace_fence_head _ H).
Qed.

(** After [replace("```", "")] no "```" is left: the characters that stay
    cannot close up to a new delimiter. *)
Lemma replace_fence_free n s :
  (String.length s <= n)%nat -> contains (replace_go 0 s "```" "") "```" = false.
Proof.
  revert s. induction n as [|n IH]; intros s Hn.
  { destruct s; [reflexivity | simpl in Hn; lia]. }
  destruct s as [|c s]; [reflexivity|]. rewrite replace_go_unfold.
  destruct (startswith (String c s) "```") eqn:E.
  - rewrite startswith_cons in E. apply andb_prop in E as [_ E].
    destruct s as [|c2 s]; [discriminate|].
    rewrite startswith_cons in E. apply andb_prop in E as [_ E].
    destruct s as [|c3 s]; [discriminate|].
    change (replace_go (String.length "```" - 1) (String c2 (String c3 s)) "```" "")
      with (replace_go 0 s "```" "").
    apply IH. simpl in Hn. lia.
  - rewrite contains_unfold, (IH s) by (simpl in Hn; lia).
    rewrite orb_false_r.
    destruct (startswith (String c (replace_go 0 s "```" "")) "```") eqn:E';
      [|reflexivity].
    rewrite startswith_cons in E'. apply andb_prop in E' as [Hc H].
    apply replace_fence_head2 in H.
    rewrite startswith_cons, Hc, H in E. discriminate.
Qed.

Lemma clean_json_str_fence_free s : contains (clean_json_str s) "```" = false.
Proof.
  unfold clean_json_str, replace. apply contains_strip.
  now apply (replace_fence_free (String.length (replace_go 0 (strip s) "```json" ""))).
Qed.

Lemma strip_fenced_plain t : strip (fenced_plain t) = fenced_plain t.
Proof.
  assert (E : fenced_plain t
              = String "`" (("``" +:+ nl +:+ t +:+ nl +:+ "``") +:+ String "`" "")).
  { unfold fenced_plain. now rewrite !append_assoc. }
  rewrite E. now apply strip_bounded.
Qed.

Lemma clean_json_str_fenced_plain t :
  contains t "```" = false -> clean_json_str (fenced_plain t) = strip t.
Proof.
  intros H. unfold clean_json_str. rewrite strip_fenced_plain.
  set (body := nl +:+ t +:+ nl).
  assert (Hbody : contains body "```" = false).
  { unfold body, nl. apply contains_cons; [|reflexivity].
    apply contains_snoc; [exact H | reflexivity]. }
  assert (Hf : fenced_plain t = "```" +:+ body +:+ "```").
  { unfold fenced_plain, body. now rewrite !append_assoc. }
  assert (Hn : no_start body "```" "```" = true).
  { unfold body, nl in *.
    change (String "010" "" +:+ t +:+ String "010" "")
      with (String "010" t +:+ String "010" "") in *.
    now apply no_start_snoc. }
  assert (Hj : no_start ("```" +:+ body) "```" "```json" = true).
  { change ("```" +:+ body)
      with (String "`" (String "`" (String "`" (String "010" (t +:+ nl))))).
    do 3 rewrite no_start_unfold.
    change (no_start (String "010" (t +:+ nl)) "```" "```json")
      with (no_start body "```" ("```" +:+ "json")).
    now rewrite (no_start_prefix _ _ _ _ Hn). }
  rewrite Hf. unfold replace.
  rewrite <- (append_assoc "```" body "```").
  rewrite (replace_go_no_start ("```" +:+ body) "```" "```json") by exact Hj.
  change (replace_go 0 "```" "```json" "") with "```".
  rewrite (append_assoc "```" body "```").
  change ("```" +:+ body +:+ "```") with ("```" +:+ (body +:+ "```")).
  rewrite replace_go_head by easy.
  rewrite (replace_go_no_start body "```" "```") by exact Hn.
  change (replace_go 0 "```" "```" "") with "".
  change ("" +:+ body +:+ "") with (body +:+ "").
  rewrite append_nil_r. unfold body, nl.
  rewrite <- append_assoc, strip_snoc_space by reflexivity.
  unfold strip. simpl lstrip. reflexivity.
Qed.

End FenceFacts.

(** X11.  Whatever the model answers, the text handed to [json.loads]
    contains no "```" (hence no "```json") any more. *)
Theorem cleaned_text_has_no_fence response_text :
  contains (clean_json_str response_text) "```" = false
  /\ contains (clean_json_str response_text) "```json" = false.
Proof.
  split; [|apply contains_fence_json]; apply clean_json_str_fence_free.
Qed.

(** X12.  The fence stripping is idempotent: cleaning a cleaned text changes
    nothing. *)
Theorem clean_json_str_idempotent response_text :
  clean_json_str (clean_json_str response_text) = clean_json_str response_text.
Proof.
  rewrite clean_json_str_plain by apply clean_json_str_fence_free.
  unfold clean_json_str. apply strip_idem.
Qed.

(** X13.  Fences without the "json" tag are stripped as well: for a text
    [t] without "```", the text wrapped in "```" lines is cleaned to [t]
    without its surrounding white space, as [t] itself is. *)
Theorem plain_fence_round_trip t :
  contains t "```" = false ->
  clean_json_str (fenced_plain t) = strip t
  /\ clean_json_str (fenced_plain t) = clean_json_str t.
Proof.
  intros H. rewrite (clean_json_str_fenced_plain t H).
  now rewrite (clean_json_str_plain t H).
Qed.

Lemma plain_fence_witness :
  clean_json_str (fenced_plain Sample.record_json) = strip Sample.record_json
  /\ clean_json_str (fenced_plain Sample.record_json)
     = clean_json_str Sample.record_json.
Proof.
  apply (plain_fence_round_trip Sample.record_json). vm_compute. reflexivity.
Defined.

(** ** The stages of a request *)

Section Stages.

Variable W : World.

Lemma validate_pdf_frame filename content st :
  fs (snd (validate_pdf W filename content st)) = fs st
  /\ stdout (snd (validate_pdf W filename content st)) = stdout st.
Proof.
  unfold validate_pdf, fitz_open_stream. unfold_monad.
  destruct (negb (endswith (lower filename) ".pdf")); [easy|]. simpl.
  destruct (fitz_FitzError W) as [is_instance|attribute_error];
    destruct (fitz_open W content) as [doc|e]; simpl;
    try destruct (close doc) as [[]|e]; simpl;
    try destruct (is_instance e); easy.
Qed.


Lemma validate_pdf_true filename content st :
  fst (validate_pdf W filename content st) = Ok true
  <-> endswith (lower filename) ".pdf" = true /\ opens_as_pdf W content = true.
Proof.
  unfold validate_pdf, fitz_open_stream, opens_as_pdf. unfold_monad.
  destruct (endswith (lower filename) ".pdf"); simpl; [|now split; [|intros []]].
  destruct (fitz_FitzError W) as [is_instance|attribute_error];
    destruct (fitz_open W content) as [doc|e]; simpl;
    try destruct (close doc) as [[]|e]; simpl;
    try destruct (is_instance e); now split; [|intros []].
Qed.

(** Nothing is written or printed for an upload that is not validated. *)
Lemma extract_aadhaar_not_validated aadhaar st :
  fst (validate_pdf W (filename aadhaar) (file aadhaar) st) <> Ok true ->
  snd (extract_aadhaar W aadhaar st)
  = snd (validate_pdf W (filename aadhaar) (file aadhaar) st).
Proof.
  intros H. unfold extract_aadhaar, extract_aadhaar_try.
  unfold try_except at 1, bind at 1.
  destruct (validate_pdf W (filename aadhaar) (file aadhaar) st)
    as [[[|]|e] st1]; simpl in *; [easy | reflexivity | now destruct e].
Qed.

(** The rasterizer gives an image only if every step up to closing the
    document succeeds. *)
Lemma convert_pdf_to_image_some path st img :
  fst (convert_pdf_to_image W path st) = Ok (Some img) ->
  exists content doc page pix,
    fs st !! path = Some content /\ fitz_open W content = Ok doc
    /\ 1 <= page_count doc /\ load_page doc 0 = Ok page
    /\ get_pixmap page = Ok pix /\ tobytes pix "png" = Ok (getvalue img)
    /\ close doc = Ok tt.
Proof.
  unfold convert_pdf_to_image, convert_pdf_to_image_try, fitz_open_path.
  unfold_monad. simpl.
  destruct (fs st !! path) as [content|]; [|easy].
  destruct (fitz_open W content) as [doc|] eqn:Ho; [|easy]. simpl.
  destruct (page_count doc <? 1) eqn:Hn; [easy|]. apply Z.ltb_ge in Hn.
  destruct (load_page doc 0) as [page|] eqn:Hl; [|easy]. simpl.
  destruct (get_pixmap page) as [pix|] eqn:Hp; [|easy]. simpl.
  destruct (tobytes pix "png") as [png|] eqn:Ht; [|easy]. simpl.
  destruct (close doc) as [[]|] eqn:Hc; [|easy]. simpl.
  intros [= <-]. now exists content, doc, page, pix.
Qed.

Lemma convert_pdf_to_image_failure path st e st' :
  convert_pdf_to_image_try W path st = (Raise e, st') ->
  convert_pdf_to_image W path st
  = (Ok None, snd (print ("Error converting PDF to image: " +:+ str e) st')).
Proof.
  intros H. unfold convert_pdf_to_image.
  now rewrite (try_except_raise _ _ _ _ _ H).
Qed.

(** The only exception that [extract_aadhaar_data] lets through is that of
    the construction of the model. *)
Lemma extract_aadhaar_data_raise image_source st e :
  fst (extract_aadhaar_data W image_source st) = Raise e
  <-> GenerativeModel W "gemini-1.5-flash" = Raise e.
Proof.
  unfold extract_aadhaar_data. unfold_monad.
  destruct (GenerativeModel W "gemini-1.5-flash") as [model|e'];
    [|simpl; split; congruence].
  split; [|discriminate].
  destruct (PIL_Image_open W (getvalue image_source)) as [img|]; [|easy].
  destruct (generate_content model prompt img) as [resp|]; [|easy].
  destruct (text resp) as [txt|]; [|easy].
  now destruct (json_loads W (clean_json_str txt)) as [v|[]].
Qed.

(** A failure of the image decoding, of the model call or of the access to
    the response text is printed and turned into [None]. *)
Lemma extract_aadhaar_data_failure image_source st model e :
  GenerativeModel W "gemini-1.5-flash" = Ok model ->
  response_text W image_source = Raise e ->
  extract_aadhaar_data W image_source st
  = (Ok PyNone, snd (print ("Error extracting Aadhaar data: " +:+ str e) st)).
Proof.
  intros Hm. unfold response_text, extract_aadhaar_data. unfold_monad.
  rewrite Hm.
  destruct (PIL_Image_open W (getvalue image_source)) as [img|];
    [|now intros [= ->]].
  destruct (generate_content model prompt img) as [resp|]; [|now intros [= ->]].
  now intros ->.
Qed.

End Stages.

(** X1.  [validate_pdf] accepts an upload exactly when its filename,
    lower-cased, ends in ".pdf" and its content can be opened and closed as
    a PDF. *)
Theorem validator_accepts_iff W filename content st :
  fst (validate_pdf W filename content st) = Ok true
  <-> endswith (lower filename) ".pdf" = true
      /\ exists doc, fitz_open W content = Ok doc /\ close doc = Ok tt.
Proof.
  rewrite validate_pdf_true. unfold opens_as_pdf.
  split; intros [Hx Ho]; (split; [exact Hx|]).
  - revert Ho. destruct (fitz_open W content) as [doc|]; [|easy].
    destruct (close doc) as [[]|] eqn:Hc; [|easy]. now exists doc.
  - destruct Ho as (doc & -> & ->). reflexivity.
Qed.

Lemma validator_accepts_witness :
  fst (validate_pdf (Sample.world 2 Sample.broken None (Ok ""))
         "Scan.Pdf" Sample.pdf_bytes Sample.st0) = Ok true.
Proof.
  apply (proj2 (validator_accepts_iff (Sample.world 2 Sample.broken None (Ok ""))
                  "Scan.Pdf" Sample.pdf_bytes Sample.st0)).
  split; [reflexivity|]. exists (Sample.document 2). split; reflexivity.
Defined.

(** X2.  For an upload that is not validated (turned down, or the validator
    raised), the request writes no scratch file and prints nothing: disk and
    standard output are as before. *)
Theorem unvalidated_upload_writes_nothing W aadhaar st :
  fst (validate_pdf W (filename aadhaar) (file aadhaar) st) <> Ok true ->
  fs (snd (extract_aadhaar W aadhaar st)) = fs st
  /\ stdout (snd (extract_aadhaar W aadhaar st)) = stdout st.
Proof.
  intros H. rewrite (extract_aadhaar_not_validated W aadhaar st H).
  apply validate_pdf_frame.
Qed.

Lemma unvalidated_upload_witness :
  fs (snd (extract_aadhaar (Sample.world 1 Sample.broken None (Ok Sample.record_json))
             {| filename := "card.pdf"; file := Sample.text_bytes |} Sample.st0))
  = fs Sample.st0
  /\ stdout (snd (extract_aadhaar
                    (Sample.world 1 Sample.broken None (Ok Sample.record_json))
                    {| filename := "card.pdf"; file := Sample.text_bytes |}
                    Sample.st0))
     = stdout Sample.st0.
Proof.
  apply (unvalidated_upload_writes_nothing
           (Sample.world 1 Sample.broken None (Ok Sample.record_json))
           {| filename := "card.pdf"; file := Sample.text_bytes |} Sample.st0).
  discriminate.
Defined.

(** X3.  The rasterizer returns an image exactly when the file is there,
    opens with at least one page, page 0 loads, renders and encodes as PNG,
    and the document closes; the image is that PNG.  A failure of the final
    [close] loses the image already rendered. *)
Theorem rasterizer_image_iff W path st img :
  fst (convert_pdf_to_image W path st) = Ok (Some img)
  <-> exists content doc page pix,
        fs st !! path = Some content /\ fitz_open W content = Ok doc
        /\ 1 <= page_count doc /\ load_page doc 0 = Ok page
        /\ get_pixmap page = Ok pix /\ tobytes pix "png" = Ok (getvalue img)
        /\ close doc = Ok tt.
Proof.
  split; [apply convert_pdf_to_image_some|].
  intros (content & doc & page & pix & Hf & Ho & Hn & Hl & Hp & Ht & Hc).
  rewrite (convert_pdf_to_image_first_page W path content doc page pix
             (getvalue img) st Hf Ho Hn Hl Hp Ht Hc).
  now destruct img.
Qed.

Lemma rasterizer_image_witness :
  fst (convert_pdf_to_image (Sample.world 3 Sample.broken None (Ok ""))
         Sample.scratch
         {| fs := {[ Sample.scratch := Sample.pdf_bytes ]};
            stdout := []; fitz_calls := [] |})
  = Ok (Some {| getvalue := list_byte_of_string "png of page 0" |}).
Proof.
  apply (proj2 (rasterizer_image_iff (Sample.world 3 Sample.broken None (Ok ""))
                  Sample.scratch
                  {| fs := {[ Sample.scratch := Sample.pdf_bytes ]};
                     stdout := []; fitz_calls := [] |}
                  {| getvalue := list_byte_of_string "png of page 0" |})).
  exists Sample.pdf_bytes, (Sample.document 3), (Sample.page 0),
    {| tobytes := fun fmt =>
         Ok (list_byte_of_string (fmt +:+ " of page " +:+ pretty 0)) |}.
  repeat split; try reflexivity. simpl. lia.
Defined.

(** X5.  Whatever exception the rasterization of a validated and saved
    upload raises, the endpoint prints it and answers 400 with
    "Failed to process <filename>". *)
Theorem rasterization_failure_answered_400 W aadhaar st st1 st2 e st3 :
  validate_pdf W (filename aadhaar) (file aadhaar) st = (Ok true, st1) ->
  open_wb_write W (temp_filename W) (file aadhaar) st1 = (Ok tt, st2) ->
  convert_pdf_to_image_try W (temp_filename W) st2 = (Raise e, st3) ->
  extract_aadhaar W aadhaar st
  = (Ok {| status_code := 400;
           content := error_content ("Failed to process " +:+ filename aadhaar) |},
     {| fs := fs st3;
        stdout := stdout st3 ++ ["Error converting PDF to image: " +:+ str e];
        fitz_calls := fitz_calls st3 |}).
Proof.
  intros Hv Hw Hc.
  rewrite (extract_aadhaar_stages W _ _ _ _ Hv Hw).
  now rewrite (convert_pdf_to_image_failure W _ _ _ _ Hc).
Qed.

Lemma rasterization_failure_witness :
  stdout (snd (extract_aadhaar
                 (Sample.world 0 Sample.broken None (Ok Sample.record_json))
                 Sample.card_pdf Sample.st0))
  = ["Error converting PDF to image: 400: PDF has no pages."].
Proof.
  epose proof (rasterization_failure_answered_400
                 (Sample.world 0 Sample.broken None (Ok Sample.record_json))
                 Sample.card_pdf Sample.st0 _ _
                 (HTTPException 400 "PDF has no pages.") _
                 eq_refl eq_refl eq_refl) as H.
  exact (f_equal (fun r => stdout (snd r)) H).
Defined.

(** X6.  [extract_aadhaar_data] raises exactly when the construction of the
    model raises, and then the same exception: every later failure is
    caught. *)
Theorem extractor_raises_iff_model_construction_fails W image_source st e :
  fst (extract_aadhaar_data W image_source st) = Raise e
  <-> GenerativeModel W "gemini-1.5-flash" = Raise e.
Proof. apply extract_aadhaar_data_raise. Qed.

Lemma extractor_raises_witness :
  fst (extract_aadhaar_data
         (Sample.without_model (Sample.world 1 Sample.broken None (Ok "{}"))
            (OtherException "ValueError" "no API key"))
         {| getvalue := [] |} Sample.st0)
  = Raise (OtherException "ValueError" "no API key").
Proof.
  apply (proj2 (extractor_raises_iff_model_construction_fails
                  (Sample.without_model
                     (Sample.world 1 Sample.broken None (Ok "{}"))
                     (OtherException "ValueError" "no API key"))
                  {| getvalue := [] |} Sample.st0
                  (OtherException "ValueError" "no API key"))).
  reflexivity.
Defined.

(** X7.  A failure of the image decoding, of the model call or of the
    access to the response text (a network error, a blocked response) is not
    answered 500: it is printed and the endpoint answers 400 with
    "Failed to extract data from <filename>". *)
Theorem model_call_failure_answered_400 W aadhaar st st1 st2 st3 img model e :
  validate_pdf W (filename aadhaar) (file aadhaar) st = (Ok true, st1) ->
  open_wb_write W (temp_filename W) (file aadhaar) st1 = (Ok tt, st2) ->
  convert_pdf_to_image W (temp_filename W) st2 = (Ok (Some img), st3) ->
  GenerativeModel W "gemini-1.5-flash" = Ok model ->
  response_text W img = Raise e ->
  extract_aadhaar W aadhaar st
  = (Ok {| status_code := 400;
           content := error_content
                        ("Failed to extract data from " +:+ filename aadhaar) |},
     {| fs := fs st3;
        stdout := stdout st3 ++ ["Error extracting Aadhaar data: " +:+ str e];
        fitz_calls := fitz_calls st3 |}).
Proof.
  intros Hv Hw Hc Hm Hr.
  rewrite (extract_aadhaar_stages W _ _ _ _ Hv Hw), Hc.
  exact (after_rasterization_absent W _ _ _ _ _
           (extract_aadhaar_data_failure W img st3 model e Hm Hr) eq_refl).
Qed.

Lemma model_call_failure_witness :
  fst (extract_aadhaar
         (Sample.world 1 Sample.broken None
            (Raise (OtherException "ValueError" "response was blocked")))
         Sample.card_pdf Sample.st0)
  = Ok {| status_code := 400;
          content := error_content "Failed to extract data from card.pdf" |}.
Proof.
  epose proof (model_call_failure_answered_400
                 (Sample.world 1 Sample.broken None
                    (Raise (OtherException "ValueError" "response was blocked")))
                 Sample.card_pdf Sample.st0 _ _ _ _ _
                 (OtherException "ValueError" "response was blocked")
                 eq_refl eq_refl eq_refl eq_refl eq_refl) as H.
  exact (f_equal fst H).
Defined.





Section Responses.

Variable W : World.

Lemma extract_aadhaar_try_ok aadhaar st r st' :
  extract_aadhaar_try W aadhaar st = (Ok r, st') ->
  status_code r = 200 /\ truthy (content r) = true.
Proof.
  unfold extract_aadhaar_try. unfold bind at 1.
  destruct (validate_pdf W (filename aadhaar) (file aadhaar) st)
    as [[[|]|e] st1]; [|easy..].
  cbv beta iota delta [negb]. unfold bind at 1.
  destruct (open_wb_write W (temp_filename W) (file aadhaar) st1)
    as [[[]|e] st2]; [|easy].
  unfold bind at 1.
  destruct (convert_pdf_to_image W (temp_filename W) st2)
    as [[[img|]|e] st3]; [|easy..].
  unfold bind at 1.
  destruct (extract_aadhaar_data W img st3) as [[v|e] st4]; [|easy].
  destruct (truthy v) eqn:Ht; [|easy]. cbv beta iota delta [negb].
  unfold bind, new_JSONResponse, ret, raise.
  destruct (try_except _ _ st4) as [[[]|e] st5]; [|easy].
  destruct (json_compliant v); [|easy].
  now intros [= <- _].
Qed.

End Responses.

(** X14.  No exception leaves the endpoint: every request gets a response,
    which is either the 200 that carries a value Python takes for true, or
    an error body {"error": message}. *)
Theorem every_request_is_answered W aadhaar st :
  exists r,
    fst (extract_aadhaar W aadhaar st) = Ok r
    /\ ((status_code r = 200 /\ truthy (content r) = true)
        \/ exists message, content r = PyDict [("error", PyStr message)]).
Proof.
  unfold extract_aadhaar, try_except.
  destruct (extract_aadhaar_try W aadhaar st) as [[r|e] st'] eqn:E.
  - exists r. split; [reflexivity|]. left.
    exact (extract_aadhaar_try_ok W aadhaar st r st' E).
  - destruct e; simpl; eexists; (split; [reflexivity|]); right; eexists;
      reflexivity.
Qed.

Lemma lower_char_idempotent c : lower_char (lower_char c) = lower_char c.
Proof. destruct c as [[] [] [] [] [] [] [] []]; reflexivity. Qed.

Lemma lower_idempotent s : lower (lower s) = lower s.
Proof.
  induction s as [|c s IH]; simpl; [reflexivity|].
  now rewrite lower_char_idempotent, IH.
Qed.

(** X9.  The validator does not tell the case of the filename: an upload
    is treated as the upload of the lower-cased name is. *)
Theorem validator_ignores_case W filename content st :
  validate_pdf W filename content st = validate_pdf W (lower filename) content st.
Proof. unfold validate_pdf. now rewrite lower_idempotent. Qed.

(** X4.  The rasterizer never raises and never changes a file: when its
    [try] body returns an image it returns that image and prints nothing;
    when the body raises [e] it returns [None] after printing the one line
    "Error converting PDF to image: " followed by [str(e)]. *)
Theorem rasterizer_never_raises W path st :
  fs (snd (convert_pdf_to_image W path st)) = fs st
  /\ match convert_pdf_to_image_try W path st with
     | (Ok img, st') =>
         convert_pdf_to_image W path st = (Ok img, st')
         /\ img <> None /\ stdout st' = stdout st
     | (Raise e, st') =>
         convert_pdf_to_image W path st
         = (Ok None,
            {| fs := fs st';
               stdout := stdout st ++ ["Error converting PDF to image: " +:+ str e];
               fitz_calls := fitz_calls st' |})
     end.
Proof.
  split; [apply convert_pdf_to_image_fs|].
  assert (Hout : stdout (snd (convert_pdf_to_image_try W path st)) = stdout st).
  { unfold convert_pdf_to_image_try, fitz_open_path. unfold_monad. simpl.
    repeat (case_outcome; simpl; try reflexivity). }
  assert (Hsome : fst (convert_pdf_to_image_try W path st) <> Ok None).
  { unfold convert_pdf_to_image_try, fitz_open_path. unfold_monad. simpl.
    repeat (case_outcome; simpl; try discriminate). }
  unfold convert_pdf_to_image, try_except.
  destruct (convert_pdf_to_image_try W path st) as [[img|e] st'];
    simpl in Hout, Hsome |- *.
  - repeat split; [congruence | exact Hout].
  - unfold bind, print, ret. simpl. now rewrite Hout.
Qed.

(** X15.  When the parsed value is taken for true but is not JSON compliant
    (it holds a NaN or an infinity), the construction of the 200 response
    raises inside the [try]: the endpoint answers 500 with the text of that
    exception, after the scratch file was removed. *)
Theorem non_compliant_value_answered_500 W aadhaar st st1 st2 st3 st4 img v :
  validate_pdf W (filename aadhaar) (file aadhaar) st = (Ok true, st1) ->
  open_wb_write W (temp_filename W) (file aadhaar) st1 = (Ok tt, st2) ->
  convert_pdf_to_image W (temp_filename W) st2 = (Ok (Some img), st3) ->
  extract_aadhaar_data W img st3 = (Ok v, st4) ->
  truthy v = true ->
  json_compliant v = false ->
  is_HTTPException (render_error W v) = false ->
  os_remove_error W (temp_filename W) = None ->
  extract_aadhaar W aadhaar st
  = (Ok {| status_code := 500;
           content := PyDict [("error", PyStr (str (render_error W v)))] |},
     {| fs := delete (temp_filename W) (fs st4);
        stdout := stdout st4;
        fitz_calls := fitz_calls st4 |}).
Proof.
  intros Hv Hw Hc He Ht Hjc Hh Hrm.
  assert (Hfile : fs st4 !! temp_filename W = Some (file aadhaar)).
  { pose proof (extract_aadhaar_data_fs W img st3) as H4.
    pose proof (convert_pdf_to_image_fs W (temp_filename W) st2) as H3.
    rewrite He in H4. rewrite Hc in H3. simpl in H3, H4.
    rewrite H4, H3. exact (open_wb_write_fs W _ _ _ _ Hw). }
  rewrite (extract_aadhaar_stages W _ _ _ _ Hv Hw), Hc.
  unfold after_rasterization, try_except at 1.
  rewrite (bind_ok _ _ _ _ _ He), Ht. cbv beta iota delta [negb].
  unfold bind, try_except, os_remove, new_JSONResponse, ret, raise.
  rewrite Hfile, Hrm, Hjc.
  now apply error_response_unexpected.
Qed.

Lemma non_compliant_value_witness :
  fst (extract_aadhaar
         (Sample.with_nan (Sample.world 1 Sample.broken None (Ok "NaN")))
         Sample.card_pdf Sample.st0)
  = Ok {| status_code := 500;
          content := PyDict
            [("error", PyStr "Out of range float values are not JSON compliant")] |}.
Proof.
  epose proof (non_compliant_value_answered_500
                 (Sample.with_nan (Sample.world 1 Sample.broken None (Ok "NaN")))
                 Sample.card_pdf Sample.st0 _ _ _ _ _ (PyFloat S754_nan)
                 eq_refl eq_refl eq_refl eq_refl eq_refl eq_refl eq_refl eq_refl)
    as H.
  exact (f_equal fst H).
Defined.
